(** * Client report engine: brand store, context builder, renderer, converter

    A shallow embedding of the Python sources

      - [src/api/models.py]            (module [Models])
      - [src/api/storage.py]           (module [Storage])
      - [src/client_reports/renderer.py] (module [Renderer])
      - [src/client_reports/pdf.py]    (module [Pdf])
      - [src/api/main.py]              (module [Api])

    Python dictionaries are finite maps ([gmap string _]); the values that
    travel through JSON documents and template contexts are trees of type
    [json]; code that raises is a function into [Result]; code that touches
    the file system or an external tool threads a [World]. *)

From Stdlib Require Import ZArith NArith Ascii String.
From stdpp Require Import gmap strings list fin_maps.

Set Warnings "-register-all".
Local Open Scope string_scope.

(* ===================================================================== *)
(** * Python values *)
(* ===================================================================== *)

Module Py.

(** What [json.load] returns and what [json.dump] accepts; also the values
    of a template context.  A [JDict] keeps its items in document order. *)
Inductive json : Type :=
| JNull
| JBool (b : bool)
| JNum (n : Z)
| JStr (s : string)
| JList (items : list json)
| JDict (items : list (string * json)).

(** [d.get(k)] on the dictionary that [json.load] builds from an object:
    when the document repeats a key, the last occurrence is the one kept. *)
Fixpoint items_get (k : string) (items : list (string * json)) : option json :=
  match items with
  | [] => None
  | (k', v) :: rest =>
      match items_get k rest with
      | Some w => Some w
      | None => if decide (k' = k) then Some v else None
      end
  end.

(** [dict(items)]: later items overwrite earlier ones. *)
Definition dict_of_items {V} (items : list (string * V)) : gmap string V :=
  fold_left (fun acc kv => <[kv.1 := kv.2]> acc) items ∅.

(** [{**base, **extra}]: the keys of [extra] are written last. *)
Definition dict_merge {V} (base extra : gmap string V) : gmap string V :=
  extra ∪ base.

(** Truthiness of an optional string, as used by [x or default]:
    [None] and the empty string are both false. *)
Definition str_or (x : option string) (default : string) : string :=
  match x with
  | Some s => if decide (s = "") then default else s
  | None => default
  end.

(** [needle in haystack] for strings. *)
Fixpoint is_prefix (p s : string) : bool :=
  match p, s with
  | EmptyString, _ => true
  | String a p', String b s' => if decide (a = b) then is_prefix p' s' else false
  | String _ _, EmptyString => false
  end.

Fixpoint contains (needle haystack : string) : bool :=
  is_prefix needle haystack ||
  match haystack with
  | EmptyString => false
  | String _ rest => contains needle rest
  end.

(** Exceptions that the modelled code raises or lets through. *)
Inductive exn : Type :=
| PdfConversionError (msg : string)
| HTTPException (status_code : Z) (detail : string)
| FileNotFoundError (msg : string)
| OtherError (cls msg : string).

(** [str(e)] *)
Definition exn_str (e : exn) : string :=
  match e with
  | PdfConversionError m => m
  | HTTPException _ d => d
  | FileNotFoundError m => m
  | OtherError _ m => m
  end.

(** The errors that say a file or template is not there: the built-in
    [FileNotFoundError] and python-docx's [PackageNotFoundError]. *)
Definition not_found_class (e : exn) : bool :=
  match e with
  | FileNotFoundError _ => true
  | OtherError cls _ => bool_decide (cls = "PackageNotFoundError")
  | _ => false
  end.

Inductive Result (A : Type) : Type :=
| Ok (a : A)
| Raise (e : exn).
Arguments Ok {A} a.
Arguments Raise {A} e.

End Py.
Import Py.

(* ===================================================================== *)
(** * datetime *)
(* ===================================================================== *)

Module Datetime.

(** A Python [datetime]: calendar fields and, for an aware value, the UTC
    offset in minutes. *)
Record datetime : Type := {
  year : N; month : N; day : N;
  hour : N; minute : N; second : N; microsecond : N;
  tzoffset : option Z
}.

Definition is_leap (y : N) : bool :=
  ((y mod 4 =? 0) && negb (y mod 100 =? 0) || (y mod 400 =? 0))%N.

Definition days_in_month (y m : N) : N :=
  match m with
  | 1 | 3 | 5 | 7 | 8 | 10 | 12 => 31
  | 4 | 6 | 9 | 11 => 30
  | 2 => if is_leap y then 29 else 28
  | _ => 0
  end%N.

(** The ranges the [datetime] constructor enforces. *)
Definition datetime_valid (d : datetime) : bool :=
  ((1 <=? year d) && (year d <=? 9999) &&
   (1 <=? month d) && (month d <=? 12) &&
   (1 <=? day d) && (day d <=? days_in_month (year d) (month d)) &&
   (hour d <? 24) && (minute d <? 60) && (second d <? 60) &&
   (microsecond d <? 1000000))%N &&
  match tzoffset d with
  | None => true
  | Some z => (Z.abs z <? 1440)%Z
  end.

(** ** Decimal fields *)

Definition digit (n : N) : ascii := ascii_of_N (48 + n mod 10).

(** [digits w n rest]: [n] in exactly [w] decimal digits, zero padded,
    followed by [rest]. *)
Fixpoint digits (w : nat) (n : N) (rest : string) : string :=
  match w with
  | O => rest
  | S w' => digits w' (n / 10) (String (digit n) rest)
  end.

Definition digit_val (c : ascii) : option N :=
  let n := N_of_ascii c in
  if ((48 <=? n) && (n <=? 57))%N then Some (n - 48)%N else None.

(** Reads exactly [w] decimal digits. *)
Fixpoint read_digits (w : nat) (s : string) (acc : N) : option (N * string) :=
  match w with
  | O => Some (acc, s)
  | S w' =>
      match s with
      | String c r =>
          match digit_val c with
          | Some d => read_digits w' r (10 * acc + d)%N
          | None => None
          end
      | EmptyString => None
      end
  end.

Definition expect (c : ascii) (s : string) : option string :=
  match s with
  | String c' r => if decide (c = c') then Some r else None
  | EmptyString => None
  end.

(** ** ISO 8601, as written into the brand document *)

Definition iso_fraction (us : N) (rest : string) : string :=
  if (us =? 0)%N then rest else String "." (digits 6 us rest).

Definition iso_hhmm (m : N) : string :=
  digits 2 (m / 60) (String ":" (digits 2 (m mod 60) "")).

Definition iso_offset (tz : option Z) : string :=
  match tz with
  | None => ""
  | Some z =>
      if (z =? 0)%Z then "Z"
      else if (0 <? z)%Z then String "+" (iso_hhmm (Z.to_N z))
      else String "-" (iso_hhmm (Z.to_N (- z)))
  end.

Definition isoformat (d : datetime) : string :=
  let tail := iso_fraction (microsecond d) (iso_offset (tzoffset d)) in
  let time := digits 2 (hour d) (String ":" (digits 2 (minute d)
                (String ":" (digits 2 (second d) tail)))) in
  digits 4 (year d) (String "-" (digits 2 (month d)
    (String "-" (digits 2 (day d) (String "T" time))))).

Definition parse_hhmm (s : string) : option N :=
  '(h, s) ← read_digits 2 s 0%N;
  s ← expect ":" s;
  '(m, s) ← read_digits 2 s 0%N;
  match s with
  | EmptyString => Some (60 * h + m)%N
  | _ => None
  end.

Definition parse_offset (s : string) : option (option Z) :=
  match s with
  | EmptyString => Some None
  | String c r =>
      if decide (c = "Z"%char) then
        match r with EmptyString => Some (Some 0%Z) | _ => None end
      else if decide (c = "+"%char) then
        (m ← parse_hhmm r; Some (Some (Z.of_N m)))
      else if decide (c = "-"%char) then
        (m ← parse_hhmm r; Some (Some (- Z.of_N m)%Z))
      else None
  end.

Definition parse_fraction (s : string) : option (N * string) :=
  match s with
  | String c r =>
      if decide (c = "."%char) then read_digits 6 r 0%N else Some (0%N, s)
  | EmptyString => Some (0%N, s)
  end.

Definition fromisoformat (s : string) : option datetime :=
  '(y, s) ← read_digits 4 s 0%N;
  s ← expect "-" s;
  '(mo, s) ← read_digits 2 s 0%N;
  s ← expect "-" s;
  '(dd, s) ← read_digits 2 s 0%N;
  s ← expect "T" s;
  '(hh, s) ← read_digits 2 s 0%N;
  s ← expect ":" s;
  '(mi, s) ← read_digits 2 s 0%N;
  s ← expect ":" s;
  '(ss, s) ← read_digits 2 s 0%N;
  '(us, s) ← parse_fraction s;
  tz ← parse_offset s;
  let d := {| year := y; month := mo; day := dd; hour := hh; minute := mi;
              second := ss; microsecond := us; tzoffset := tz |} in
  if datetime_valid d then Some d else None.

(** ** [strftime("%B %d, %Y")] and [strftime("%Y%m%d_%H%M%S")] *)

Definition month_name (m : N) : string :=
  match m with
  | 1 => "January" | 2 => "February" | 3 => "March" | 4 => "April"
  | 5 => "May" | 6 => "June" | 7 => "July" | 8 => "August"
  | 9 => "September" | 10 => "October" | 11 => "November" | 12 => "December"
  | _ => ""
  end%N.

Definition strftime_B_d_Y (d : datetime) : string :=
  month_name (month d) +:+ " " +:+ digits 2 (day d) (", " +:+ digits 4 (year d) "").

Definition strftime_stamp (d : datetime) : string :=
  digits 4 (year d) (digits 2 (month d) (digits 2 (day d)
    (String "_" (digits 2 (hour d) (digits 2 (minute d) (digits 2 (second d) "")))))).

End Datetime.
Import Datetime.

(* ===================================================================== *)
(** * src/api/models.py *)
(* ===================================================================== *)

Module BrandConfig.

(** [website_url] holds a validated [HttpUrl] as its text. *)
Record t : Type := {
  client_id : string;
  display_name : string;
  primary_color : option string;
  secondary_color : option string;
  font_family : option string;
  logo_path : option string;
  website_url : option string;
  created_at : option datetime;
  updated_at : option datetime
}.

(** [brand.model_copy(update={"created_at": c, "updated_at": u})] *)
Definition copy_timestamps (brand : t) (c u : option datetime) : t :=
  {| client_id := client_id brand;
     display_name := display_name brand;
     primary_color := primary_color brand;
     secondary_color := secondary_color brand;
     font_family := font_family brand;
     logo_path := logo_path brand;
     website_url := website_url brand;
     created_at := c;
     updated_at := u |}.

(** [brand.model_copy(update={"logo_path": p, "updated_at": u})] *)
Definition copy_logo (brand : t) (p : option string) (u : option datetime) : t :=
  {| client_id := client_id brand;
     display_name := display_name brand;
     primary_color := primary_color brand;
     secondary_color := secondary_color brand;
     font_family := font_family brand;
     logo_path := p;
     website_url := website_url brand;
     created_at := created_at brand;
     updated_at := u |}.

Definition dump_opt_str (x : option string) : json :=
  match x with Some s => JStr s | None => JNull end.

Definition dump_opt_datetime (x : option datetime) : json :=
  match x with Some d => JStr (isoformat d) | None => JNull end.

(** [brand.model_dump(mode="json")] *)
Definition model_dump_json (brand : t) : json :=
  JDict [ ("client_id", JStr (client_id brand));
          ("display_name", JStr (display_name brand));
          ("primary_color", dump_opt_str (primary_color brand));
          ("secondary_color", dump_opt_str (secondary_color brand));
          ("font_family", dump_opt_str (font_family brand));
          ("logo_path", dump_opt_str (logo_path brand));
          ("website_url", dump_opt_str (website_url brand));
          ("created_at", dump_opt_datetime (created_at brand));
          ("updated_at", dump_opt_datetime (updated_at brand)) ].

(** Field validators.  The outer [option] is failure (a [ValidationError]);
    a field that is missing from the keyword arguments is [None] here. *)
Definition validate_str (v : option json) : option string :=
  match v with
  | Some (JStr s) => Some s
  | _ => None
  end.

Definition validate_opt_str (v : option json) : option (option string) :=
  match v with
  | None | Some JNull => Some None
  | Some (JStr s) => Some (Some s)
  | Some _ => None
  end.

(** The part of [HttpUrl] validation that is modelled: the scheme. *)
Definition http_scheme (s : string) : bool :=
  is_prefix "http://" s || is_prefix "https://" s.

Definition validate_opt_url (v : option json) : option (option string) :=
  match v with
  | None | Some JNull => Some None
  | Some (JStr s) => if http_scheme s then Some (Some s) else None
  | Some _ => None
  end.

Definition validate_opt_datetime (v : option json) : option (option datetime) :=
  match v with
  | None | Some JNull => Some None
  | Some (JStr s) => d ← fromisoformat s; Some (Some d)
  | Some _ => None
  end.

(** The constructor applied to the keyword arguments [v] read from the
    document.  Keys that name no field are ignored.  The coercions pydantic
    offers for other input shapes (a number for a timestamp, say) are not
    modelled: such input is refused here. *)
Definition validate (v : json) : option t :=
  match v with
  | JDict kw =>
      cid ← validate_str (items_get "client_id" kw);
      dn ← validate_str (items_get "display_name" kw);
      pc ← validate_opt_str (items_get "primary_color" kw);
      sc ← validate_opt_str (items_get "secondary_color" kw);
      ff ← validate_opt_str (items_get "font_family" kw);
      lp ← validate_opt_str (items_get "logo_path" kw);
      wu ← validate_opt_url (items_get "website_url" kw);
      ca ← validate_opt_datetime (items_get "created_at" kw);
      ua ← validate_opt_datetime (items_get "updated_at" kw);
      Some {| client_id := cid; display_name := dn; primary_color := pc;
              secondary_color := sc; font_family := ff; logo_path := lp;
              website_url := wu; created_at := ca; updated_at := ua |}
  | _ => None
  end.

(** What every validated instance satisfies. *)
Definition opt_valid {A} (p : A -> bool) (x : option A) : bool :=
  match x with Some a => p a | None => true end.

Definition wf (brand : t) : bool :=
  opt_valid http_scheme (website_url brand) &&
  opt_valid datetime_valid (created_at brand) &&
  opt_valid datetime_valid (updated_at brand).

End BrandConfig.

Module MetricItem.
Record t : Type := { name : string; value : string; change : string; status : string }.

Definition model_dump (m : t) : json :=
  JDict [ ("name", JStr (name m)); ("value", JStr (value m));
          ("change", JStr (change m)); ("status", JStr (status m)) ].
End MetricItem.

Module RecommendationItem.
Record t : Type := { priority : string; title : string; description : string }.

Definition model_dump (r : t) : json :=
  JDict [ ("priority", JStr (priority r)); ("title", JStr (title r));
          ("description", JStr (description r)) ].
End RecommendationItem.

Module ContactInfo.
Record t : Type := {
  name : string; title : option string; email : option string; phone : option string
}.

Definition model_dump (c : t) : json :=
  JDict [ ("name", JStr (name c));
          ("title", BrandConfig.dump_opt_str (title c));
          ("email", BrandConfig.dump_opt_str (email c));
          ("phone", BrandConfig.dump_opt_str (phone c)) ].
End ContactInfo.

Module ReportRequest.
Record t : Type := {
  client_id : string;
  template_name : string;
  report_date : option string;
  report_period : option string;
  prepared_by : option string;
  executive_summary : option string;
  metrics : list MetricItem.t;
  highlights : list string;
  recommendations : list RecommendationItem.t;
  contact : option ContactInfo.t;
  extra_context : gmap string json;
  generate_pdf : bool;
  output_filename : option string
}.
End ReportRequest.

Module ReportResponse.
Record t : Type := {
  client_id : string;
  docx_path : string;
  pdf_path : option string;
  generated_at : datetime;
  template_used : string
}.
End ReportResponse.

(* ===================================================================== *)
(** * src/api/storage.py *)
(* ===================================================================== *)

Module Storage.

(** The backing file.  [json.dump] followed by [json.load] is the standard
    library's and gives back the tree it was given, so a well-formed file is
    held as that tree. *)
Inductive file : Type :=
| Missing
| Garbled
| Document (data : json).

Record BrandStorage : Type := {
  storage_file : file;
  _cache : gmap string BrandConfig.t
}.

(** The dict comprehension of [_load]: one failing record fails it all. *)
Fixpoint load_items (items : list (string * json))
  : option (list (string * BrandConfig.t)) :=
  match items with
  | [] => Some []
  | (k, v) :: rest =>
      b ← BrandConfig.validate v;
      bs ← load_items rest;
      Some ((k, b) :: bs)
  end.

(** [json.load] turns the top-level object into a dictionary [data];
    anything but an object, and any record the constructor refuses, ends in
    the [except] branch. *)
Definition _load (f : file) : gmap string BrandConfig.t :=
  match f with
  | Document (JDict items) =>
      let data := dict_of_items items in
      match load_items (map_to_list data) with
      | Some l => dict_of_items l
      | None => ∅
      end
  | Document _ => ∅
  | Garbled => ∅
  | Missing => ∅
  end.

(** The document [_save] writes for a cache. *)
Definition dump (cache : gmap string BrandConfig.t) : json :=
  JDict (map_to_list (BrandConfig.model_dump_json <$> cache)).

Definition _save (st : BrandStorage) : BrandStorage :=
  {| storage_file := Document (dump (_cache st)); _cache := _cache st |}.

(** [BrandStorage(storage_path)] over the file found there. *)
Definition init (f : file) : BrandStorage :=
  {| storage_file := f; _cache := _load f |}.

Definition get (client_id : string) (st : BrandStorage) : option BrandConfig.t :=
  _cache st !! client_id.

Definition get_all (st : BrandStorage) : list BrandConfig.t :=
  (map_to_list (_cache st)).*2.

Definition set_cache (st : BrandStorage) (cache : gmap string BrandConfig.t) :=
  {| storage_file := storage_file st; _cache := cache |}.

(** [now] is the reading of [datetime.utcnow()]. *)
Definition upsert (now : datetime) (brand : BrandConfig.t) (st : BrandStorage)
  : BrandConfig.t * BrandStorage :=
  let existing := _cache st !! BrandConfig.client_id brand in
  let brand :=
    match existing with
    | Some existing =>
        BrandConfig.copy_timestamps brand (BrandConfig.created_at existing) (Some now)
    | None =>
        BrandConfig.copy_timestamps brand (Some now) (Some now)
    end in
  (brand, _save (set_cache st (<[BrandConfig.client_id brand := brand]> (_cache st)))).

Definition update_logo (now : datetime) (client_id logo_path : string)
  (st : BrandStorage) : option BrandConfig.t * BrandStorage :=
  match _cache st !! client_id with
  | Some brand =>
      let brand := BrandConfig.copy_logo brand (Some logo_path) (Some now) in
      (Some brand, _save (set_cache st (<[client_id := brand]> (_cache st))))
  | None => (None, st)
  end.

Definition delete (client_id : string) (st : BrandStorage) : bool * BrandStorage :=
  match _cache st !! client_id with
  | Some _ => (true, _save (set_cache st (base.delete client_id (_cache st))))
  | None => (false, st)
  end.

Definition exists_ (client_id : string) (st : BrandStorage) : bool :=
  bool_decide (is_Some (_cache st !! client_id)).

End Storage.

(* ===================================================================== *)
(** * The host: file system, clock, installed tools *)
(* ===================================================================== *)

Module Host.

(** ** pathlib, on absolute normalised path strings *)

(** This first model of the host reads a path as its text, which is what
    [pathlib] does to a path that is absolute and normalised, and has a disk
    that never refuses.  Module [Platform], further down, takes the library
    calls as they are: paths that [pathlib] rewrites, and calls that raise. *)

(** Splits at the last occurrence of [c]. *)
Fixpoint rsplit (c : ascii) (s : string) : option (string * string) :=
  match s with
  | EmptyString => None
  | String a r =>
      match rsplit c r with
      | Some (b, t) => Some (String a b, t)
      | None => if decide (a = c) then Some (EmptyString, r) else None
      end
  end.

(** [base / name]: an absolute [name] replaces [base]. *)
Definition path_join (base name : string) : string :=
  if is_prefix "/" name then name else base +:+ "/" +:+ name.

Definition path_name (p : string) : string :=
  match rsplit "/" p with
  | Some (_, n) => n
  | None => p
  end.

Definition path_parent (p : string) : string :=
  match rsplit "/" p with
  | Some (d, _) => if decide (d = "") then "/" else d
  | None => "."
  end.

(** [name] without its last suffix; a leading or trailing dot is no suffix. *)
Definition name_stem (n : string) : string :=
  match rsplit "." n with
  | Some (b, t) => if decide (b = "") then n else if decide (t = "") then n else b
  | None => n
  end.

Definition path_stem (p : string) : string := name_stem (path_name p).

Definition with_suffix (p suffix : string) : string :=
  match rsplit "/" p with
  | Some (d, n) => d +:+ "/" +:+ name_stem n +:+ suffix
  | None => name_stem p +:+ suffix
  end.

(** [Path(p).resolve()]: the paths handled are absolute and normalised. *)
Definition resolve (p : string) : string := p.

(** ** The world a request runs in *)

(** Calls that leave the process. *)
Inductive event : Type :=
| DocxTemplateCall (template_path output_path : string)
| SubprocessRun (args : list string)
| Docx2pdfConvert (docx_path pdf_path : string).

Record World : Type := {
  files : gset string;
  dirs : gset string;
  trace : list event
}.

(** What is installed on the machine, and how it behaves.

    - [docxtpl template_path context output_path files] stands for
      [DocxTemplate(template_path)], [render(context)], [save(output_path)]:
      the exception it raises, if any, and the files afterwards.
    - [subprocess_run args files] is the completed process: return code,
      standard error, and the files afterwards.
    - [docx2pdf] is [None] when the import fails; otherwise its [convert].
    - [datetime_now] and [datetime_utcnow] are the clock, read once for a
      request. *)
Record Host : Type := {
  BASE_DIR : string;
  sys_platform : string;
  which : string -> option string;
  docxtpl : string -> gmap string json -> string -> gset string
            -> option exn * gset string;
  subprocess_run : list string -> gset string -> Z * string * gset string;
  docx2pdf : option (string -> string -> gset string -> option exn * gset string);
  datetime_now : datetime;
  datetime_utcnow : datetime
}.

(** A computation that may raise and that changes the world either way. *)
Definition M (A : Type) : Type := World -> Result A * World.

Definition ret {A} (a : A) : M A := fun w => (Ok a, w).
Definition raise {A} (e : exn) : M A := fun w => (Raise e, w).
Definition bind {A B} (m : M A) (k : A -> M B) : M B :=
  fun w =>
    match m w with
    | (Ok a, w') => k a w'
    | (Raise e, w') => (Raise e, w')
    end.

(** [d.mkdir(parents=True, exist_ok=True)] *)
Definition mkdir (d : string) : M unit :=
  fun w => (Ok tt, {| files := files w; dirs := {[d]} ∪ dirs w; trace := trace w |}).

Definition log (fs : gset string) (ev : event) (w : World) : World :=
  {| files := fs; dirs := dirs w; trace := trace w ++ [ev] |}.

(** Truthiness of what [shutil.which] returns. *)
Definition truthy (x : option string) : bool :=
  match x with
  | Some s => negb (bool_decide (s = ""))
  | None => false
  end.


End Host.
Import Host.

Declare Scope world_scope.
Notation "x <-- m ;; k" := (Host.bind m (fun x => k))
  (at level 100, m at next level, right associativity) : world_scope.
Local Open Scope world_scope.

(* ===================================================================== *)
(** * src/client_reports/renderer.py *)
(* ===================================================================== *)

Module Renderer.

Definition TEMPLATE_DIR (h : Host) : string := BASE_DIR h +:+ "/reports/templates".
Definition OUTPUT_DIR (h : Host) : string := BASE_DIR h +:+ "/reports/output".

(** [s.replace(old, new)] for a non-empty [old]: every occurrence, found
    from the left and not overlapping.  [skip] counts the characters of a
    matched occurrence still to be dropped. *)
Fixpoint replace_go (old new : string) (skip : nat) (s : string) : string :=
  match s with
  | EmptyString => EmptyString
  | String c r =>
      match skip with
      | S k => replace_go old new k r
      | O =>
          if is_prefix old s
          then new +:+ replace_go old new (String.length old - 1) r
          else String c (replace_go old new 0 r)
      end
  end.

Definition str_replace (old new s : string) : string := replace_go old new 0 s.

(** The name used when [output_name is None]. *)
Definition default_output_name (template_name : string) : string :=
  str_replace ".docx" "_rendered.docx" template_name.

Definition render_docx (h : Host) (template_name : string)
  (context : gmap string json) (output_name : option string) : M string :=
  let template_path := path_join (TEMPLATE_DIR h) template_name in
  let output_name :=
    match output_name with
    | None => default_output_name template_name
    | Some n => n
    end in
  _ <-- mkdir (OUTPUT_DIR h) ;;
  let output_path := path_join (OUTPUT_DIR h) output_name in
  fun w =>
    let '(err, fs) := docxtpl h template_path context output_path (files w) in
    let w' := log fs (DocxTemplateCall template_path output_path) w in
    match err with
    | Some e => (Raise e, w')
    | None => (Ok output_path, w')
    end.

(** The derived name as the specification words it: the extension marker
    (the last dot and what follows) gives way to [_rendered] followed by the
    extension; the rest of the name stays. *)
Definition claimed_output_name (template_name : string) : string :=
  match rsplit "." template_name with
  | Some (stem, ext) => stem +:+ "_rendered." +:+ ext
  | None => template_name
  end.

End Renderer.

(* ===================================================================== *)
(** * src/client_reports/pdf.py *)
(* ===================================================================== *)

Module Pdf.

Definition soffice_args (docx_path output_dir : string) : list string :=
  ["soffice"; "--headless"; "--convert-to"; "pdf"; "--outdir"; output_dir; docx_path].

Definition _convert_with_libreoffice (h : Host) (docx_path output_dir : string)
  : M string :=
  fun w =>
    let args := soffice_args docx_path output_dir in
    let '(returncode, stderr, fs) := subprocess_run h args (files w) in
    let w' := log fs (SubprocessRun args) w in
    if decide (returncode ≠ 0%Z)
    then (Raise (PdfConversionError ("LibreOffice failed: " +:+ stderr)), w')
    else (Ok (path_join output_dir (path_stem docx_path +:+ ".pdf")), w').

Definition _convert_with_docx2pdf (h : Host) (docx_path pdf_path : string)
  : M string :=
  fun w =>
    match docx2pdf h with
    | None => (Raise (PdfConversionError "docx2pdf not installed"), w)
    | Some convert =>
        let '(err, fs) := convert docx_path pdf_path (files w) in
        let w' := log fs (Docx2pdfConvert docx_path pdf_path) w in
        match err with
        | Some e => (Raise e, w')
        | None =>
            if decide (pdf_path ∈ fs)
            then (Ok pdf_path, w')
            else (Raise (PdfConversionError "docx2pdf did not create output file"), w')
        end
    end.

Definition no_backend_message : string :=
  "No PDF backend found. Install LibreOffice (soffice on PATH) or docx2pdf.".

Definition native_platform (h : Host) : bool :=
  bool_decide (sys_platform h = "win32") || bool_decide (sys_platform h = "darwin").

Definition docx_to_pdf (h : Host) (input_path : string) (output_path : option string)
  : M string :=
  let docx_path := resolve input_path in
  let pdf_path :=
    match output_path with
    | None => with_suffix docx_path ".pdf"
    | Some o => resolve o
    end in
  let output_dir := path_parent pdf_path in
  _ <-- mkdir output_dir ;;
  if truthy (which h "soffice") then _convert_with_libreoffice h docx_path output_dir
  else if native_platform h then _convert_with_docx2pdf h docx_path pdf_path
  else raise (PdfConversionError no_backend_message).

End Pdf.

(* ===================================================================== *)
(** * src/api/main.py *)
(* ===================================================================== *)

Module Api.

Definition brand_styling (brand : BrandConfig.t) : json :=
  JDict [ ("primary_color", BrandConfig.dump_opt_str (BrandConfig.primary_color brand));
          ("secondary_color", BrandConfig.dump_opt_str (BrandConfig.secondary_color brand));
          ("font_family", BrandConfig.dump_opt_str (BrandConfig.font_family brand));
          ("logo_path", BrandConfig.dump_opt_str (BrandConfig.logo_path brand)) ].

(** The items of the context literal that stand before [**extra_context]. *)
Definition computed_items (now : datetime) (brand : BrandConfig.t)
  (request : ReportRequest.t) : list (string * json) :=
  [ ("client_name", JStr (BrandConfig.display_name brand));
    ("report_date",
       JStr (str_or (ReportRequest.report_date request) (strftime_B_d_Y now)));
    ("report_period", JStr (str_or (ReportRequest.report_period request) ""));
    ("prepared_by", JStr (str_or (ReportRequest.prepared_by request) ""));
    ("executive_summary", JStr (str_or (ReportRequest.executive_summary request) ""));
    ("metrics", JList (MetricItem.model_dump <$> ReportRequest.metrics request));
    ("highlights", JList (JStr <$> ReportRequest.highlights request));
    ("recommendations",
       JList (RecommendationItem.model_dump <$> ReportRequest.recommendations request));
    ("contact",
       match ReportRequest.contact request with
       | Some c => ContactInfo.model_dump c
       | None => JDict []
       end);
    ("brand", brand_styling brand) ].

Definition computed_context (now : datetime) (brand : BrandConfig.t)
  (request : ReportRequest.t) : gmap string json :=
  dict_of_items (computed_items now brand request).

(** The whole literal [{..., **request.extra_context}]. *)
Definition build_context (now : datetime) (brand : BrandConfig.t)
  (request : ReportRequest.t) : gmap string json :=
  dict_merge (computed_context now brand request) (ReportRequest.extra_context request).

Definition output_name_for (now : datetime) (request : ReportRequest.t) : string :=
  str_or (ReportRequest.output_filename request)
         (ReportRequest.client_id request +:+ "_report_" +:+ strftime_stamp now +:+ ".docx").

Definition generate_report (h : Host) (storage : Storage.BrandStorage)
  (request : ReportRequest.t) : M ReportResponse.t :=
  match Storage.get (ReportRequest.client_id request) storage with
  | None => raise (HTTPException 404 "Client not found")
  | Some brand =>
      let context := build_context (datetime_now h) brand request in
      let output_name := output_name_for (datetime_now h) request in
      fun w =>
        match Renderer.render_docx h (ReportRequest.template_name request)
                context (Some output_name) w with
        | (Raise e, w1) =>
            (Raise (HTTPException 500 ("Failed to render report: " +:+ exn_str e)), w1)
        | (Ok docx_path, w1) =>
            let respond pdf_path :=
              {| ReportResponse.client_id := ReportRequest.client_id request;
                 ReportResponse.docx_path := docx_path;
                 ReportResponse.pdf_path := pdf_path;
                 ReportResponse.generated_at := datetime_utcnow h;
                 ReportResponse.template_used := ReportRequest.template_name request |} in
            if ReportRequest.generate_pdf request then
              match Pdf.docx_to_pdf h docx_path None w1 with
              | (Raise (PdfConversionError m), w2) =>
                  (Raise (HTTPException 500 ("PDF conversion failed: " +:+ m)), w2)
              | (Raise e, w2) => (Raise e, w2)
              | (Ok pdf_path, w2) => (Ok (respond (Some pdf_path)), w2)
              end
            else (Ok (respond None), w1)
        end
  end.

End Api.

(* ===================================================================== *)
(** * Sample data *)
(* ===================================================================== *)

Module Sample.

Definition noon : datetime :=
  {| year := 2025; month := 1; day := 5; hour := 12; minute := 0; second := 0;
     microsecond := 0; tzoffset := None |}.

Definition later : datetime :=
  {| year := 2025; month := 3; day := 9; hour := 8; minute := 30; second := 15;
     microsecond := 250000; tzoffset := None |}.

(** A client whose logo has been uploaded. *)
Definition acme : BrandConfig.t :=
  {| BrandConfig.client_id := "acme";
     BrandConfig.display_name := "Acme Co";
     BrandConfig.primary_color := Some "#004481";
     BrandConfig.secondary_color := None;
     BrandConfig.font_family := Some "Roboto";
     BrandConfig.logo_path := Some "brands/acme_logo.png";
     BrandConfig.website_url := Some "https://acme.example/";
     BrandConfig.created_at := Some noon;
     BrandConfig.updated_at := Some noon |}.

(** The body of a later [POST /clients] for the same client. *)
Definition acme_renamed : BrandConfig.t :=
  {| BrandConfig.client_id := "acme";
     BrandConfig.display_name := "Acme Corp";
     BrandConfig.primary_color := None;
     BrandConfig.secondary_color := None;
     BrandConfig.font_family := None;
     BrandConfig.logo_path := None;
     BrandConfig.website_url := None;
     BrandConfig.created_at := None;
     BrandConfig.updated_at := None |}.

Definition acme_store : Storage.BrandStorage :=
  Storage._save {| Storage.storage_file := Storage.Missing;
                   Storage._cache := {[ "acme" := acme ]} |}.

Definition empty_store : Storage.BrandStorage :=
  Storage.init Storage.Missing.

(** A template engine that opens the template file before anything else. *)
Definition engine (template_path : string) (context : gmap string json)
  (output_path : string) (fs : gset string) : option exn * gset string :=
  if decide (template_path ∈ fs)
  then (None, {[output_path]} ∪ fs)
  else (Some (FileNotFoundError template_path), fs).

(** A Linux machine with neither LibreOffice nor docx2pdf. *)
Definition bare_linux : Host :=
  {| BASE_DIR := "/srv/app";
     sys_platform := "linux";
     which := fun _ => None;
     docxtpl := engine;
     subprocess_run := fun _ fs => (127%Z, "soffice: not found", fs);
     docx2pdf := None;
     datetime_now := noon;
     datetime_utcnow := noon |}.

(** A machine whose [soffice] exits with status 0 and writes nothing. *)
Definition silent_soffice : Host :=
  {| BASE_DIR := "/srv/app";
     sys_platform := "linux";
     which := fun c => if decide (c = "soffice") then Some "/usr/bin/soffice" else None;
     docxtpl := engine;
     subprocess_run := fun _ fs => (0%Z, "", fs);
     docx2pdf := None;
     datetime_now := noon;
     datetime_utcnow := noon |}.

Definition disk : World :=
  {| files := {[ "/srv/app/reports/templates/sample_report.docx";
                 "/srv/app/reports/output/acme.docx" ]};
     dirs := {[ "/srv/app/reports/templates" ]};
     trace := [] |}.

Definition request (client_id : string) (report_date : option string)
  (extra_context : gmap string json) : ReportRequest.t :=
  {| ReportRequest.client_id := client_id;
     ReportRequest.template_name := "sample_report.docx";
     ReportRequest.report_date := report_date;
     ReportRequest.report_period := Some "Q1 2025";
     ReportRequest.prepared_by := None;
     ReportRequest.executive_summary := None;
     ReportRequest.metrics := [];
     ReportRequest.highlights := [];
     ReportRequest.recommendations := [];
     ReportRequest.contact := None;
     ReportRequest.extra_context := extra_context;
     ReportRequest.generate_pdf := false;
     ReportRequest.output_filename := None |}.

End Sample.

(* ===================================================================== *)
(** * src/api/main.py: the client endpoints *)
(* ===================================================================== *)

Module Endpoints.
Import Storage.

(** [GET /clients/{client_id}] *)
Definition get_client (client_id : string) (storage : BrandStorage)
  : Result BrandConfig.t :=
  match get client_id storage with
  | Some brand => Ok brand
  | None => Raise (HTTPException 404 "Client not found")
  end.

(** [POST /clients] *)
Definition upsert_client (h : Host) (brand : BrandConfig.t) (storage : BrandStorage)
  : BrandConfig.t * BrandStorage :=
  upsert (datetime_utcnow h) brand storage.

(** [DELETE /clients/{client_id}] *)
Definition delete_client (client_id : string) (storage : BrandStorage)
  : Result json * BrandStorage :=
  let '(found, storage') := delete client_id storage in
  if negb found
  then (Raise (HTTPException 404 "Client not found"), storage')
  else (Ok (JDict [ ("message", JStr "Client deleted"); ("client_id", JStr client_id) ]),
        storage').

End Endpoints.

(* ===================================================================== *)
(** * What the store keeps true *)
(* ===================================================================== *)

Module StoreInvariants.
Import Storage.

(** Every record sits under its own client_id. *)
Definition keyed (st : BrandStorage) : Prop :=
  ∀ k b, get k st = Some b -> BrandConfig.client_id b = k.

(** Every record is a valid instance. *)
Definition valid_records (st : BrandStorage) : Prop :=
  ∀ k b, get k st = Some b -> BrandConfig.wf b = true.

(** The backing file holds the document of the cache. *)
Definition synced (st : BrandStorage) : Prop :=
  storage_file st = Document (dump (_cache st)).

End StoreInvariants.

(* ===================================================================== *)
(** * More sample data *)
(* ===================================================================== *)

Module Fixtures.


Definition pdf_request : ReportRequest.t :=
  {| ReportRequest.client_id := "acme";
     ReportRequest.template_name := "sample_report.docx";
     ReportRequest.report_date := None;
     ReportRequest.report_period := None;
     ReportRequest.prepared_by := None;
     ReportRequest.executive_summary := None;
     ReportRequest.metrics := [];
     ReportRequest.highlights := [];
     ReportRequest.recommendations := [];
     ReportRequest.contact := None;
     ReportRequest.extra_context := ∅;
     ReportRequest.generate_pdf := true;
     ReportRequest.output_filename := Some "acme.docx" |}.

End Fixtures.

(* ===================================================================== *)
(** * [_load], for any record constructor *)
(* ===================================================================== *)

Module Loader.
Import Storage.

Section WithConstructor.
Context {R : Type}.

(** What stands for the record constructor applied to one value of the
    document: [None] when it raises. *)
Variable construct : json -> option R.

(** The dict comprehension: the first value refused ends it. *)
Fixpoint load_items (items : list (string * json)) : option (list (string * R)) :=
  match items with
  | [] => Some []
  | (k, v) :: rest =>
      b ← construct v;
      bs ← load_items rest;
      Some ((k, b) :: bs)
  end.

(** The body of [_load]: every failure inside the [try] gives the empty
    cache. *)
Definition load (f : file) : gmap string R :=
  match f with
  | Document (JDict items) =>
      let data := dict_of_items items in
      match load_items (map_to_list data) with
      | Some l => dict_of_items l
      | None => ∅
      end
  | Document _ => ∅
  | Garbled => ∅
  | Missing => ∅
  end.
End WithConstructor.

End Loader.

(* ===================================================================== *)
(** * The platform: pathlib, os, shutil, subprocess, installed packages *)
(* ===================================================================== *)

(** The renderer, the converter and the endpoints once more, this time
    over a platform whose every library call is a parameter and may refuse:
    paths are what [pathlib] makes of them, directories may fail to be
    created, the tool may fail to start.  A path object is held as its
    text, [str(path)]. *)
Module Platform.

Record t : Type := {
  (** [str(Path(s).resolve())] *)
  resolve : string -> World -> Result string;
  (** [str(Path(s).with_suffix(suffix))] *)
  with_suffix : string -> string -> Result string;
  (** [str(Path(s).parent)], [Path(s).stem], [Path(s).suffix] *)
  parent : string -> string;
  stem : string -> string;
  suffix : string -> string;
  (** [str(Path(a) / b)] *)
  joinpath : string -> string -> string;
  (** [Path(s).mkdir(parents=True, exist_ok=True)] *)
  mkdir_parents : string -> World -> Result unit * World;
  (** [Path(s).exists()] *)
  path_exists : string -> World -> bool;
  (** What [open(Path(s), "rb")] raises, if it does. *)
  open_read : string -> World -> option exn;
  (** [open(Path(s), "wb")] and a write. *)
  write_bytes : string -> World -> Result unit * World;
  BASE_DIR : string;
  sys_platform : string;
  which : string -> option string;
  (** [DocxTemplate(template_path)], [render(context)], [save(output_path)] *)
  docxtpl : string -> gmap string json -> string -> World -> option exn * World;
  (** [subprocess.run(args, ...)]: it raises, or there is a completed
      process with its return code and standard error. *)
  subprocess_run : list string -> World -> Result (Z * string) * World;
  (** [None] when the import fails; otherwise [convert]. *)
  docx2pdf : option (string -> string -> World -> option exn * World);
  datetime_now : datetime;
  datetime_utcnow : datetime
}.

(** The files and directories are as the call left them; the record of
    outside calls is kept here. *)
Definition after (w w' : World) : World :=
  {| files := files w'; dirs := dirs w'; trace := trace w |}.

Definition outside (ev : event) (w w' : World) : World :=
  {| files := files w'; dirs := dirs w'; trace := trace w ++ [ev] |}.

(** The class name of an exception. *)
Definition exn_class (e : exn) : string :=
  match e with
  | PdfConversionError _ => "PdfConversionError"
  | HTTPException _ _ => "HTTPException"
  | FileNotFoundError _ => "FileNotFoundError"
  | OtherError cls _ => cls
  end.

(** The template engine begins by opening the template file: where
    [open] refuses, the engine raises what [open] raised. *)
Definition engine_opens_template (p : t) : Prop :=
  ∀ template_path context output_path w e,
    open_read p template_path w = Some e ->
    (docxtpl p template_path context output_path w).1 = Some e.

End Platform.

Module OnPlatform.

Definition TEMPLATE_DIR (p : Platform.t) : string :=
  Platform.joinpath p (Platform.joinpath p (Platform.BASE_DIR p) "reports") "templates".

Definition OUTPUT_DIR (p : Platform.t) : string :=
  Platform.joinpath p (Platform.joinpath p (Platform.BASE_DIR p) "reports") "output".

Definition BRANDS_DIR : string := "brands".

Definition make_dir (p : Platform.t) (d : string) : M unit :=
  fun w =>
    let '(r, w') := Platform.mkdir_parents p d w in
    (r, Platform.after w w').

(** ** src/client_reports/renderer.py *)

Definition render_docx (p : Platform.t) (template_name : string)
  (context : gmap string json) (output_name : option string) : M string :=
  let template_path := Platform.joinpath p (TEMPLATE_DIR p) template_name in
  let output_name :=
    match output_name with
    | None => Renderer.default_output_name template_name
    | Some n => n
    end in
  _ <-- make_dir p (OUTPUT_DIR p) ;;
  let output_path := Platform.joinpath p (OUTPUT_DIR p) output_name in
  fun w =>
    let '(err, w') := Platform.docxtpl p template_path context output_path w in
    let w'' := Platform.outside (DocxTemplateCall template_path output_path) w w' in
    match err with
    | Some e => (Raise e, w'')
    | None => (Ok output_path, w'')
    end.

(** ** src/client_reports/pdf.py *)

Definition _convert_with_libreoffice (p : Platform.t) (docx_path output_dir : string)
  : M string :=
  fun w =>
    let args := ["soffice"; "--headless"; "--convert-to"; "pdf"; "--outdir";
                 output_dir; docx_path] in
    let '(r, w') := Platform.subprocess_run p args w in
    let w'' := Platform.outside (SubprocessRun args) w w' in
    match r with
    | Raise e => (Raise e, w'')
    | Ok (returncode, stderr) =>
        if decide (returncode ≠ 0%Z)
        then (Raise (PdfConversionError ("LibreOffice failed: " +:+ stderr)), w'')
        else (Ok (Platform.joinpath p output_dir (Platform.stem p docx_path +:+ ".pdf")),
              w'')
    end.

Definition _convert_with_docx2pdf (p : Platform.t) (docx_path pdf_path : string)
  : M string :=
  fun w =>
    match Platform.docx2pdf p with
    | None => (Raise (PdfConversionError "docx2pdf not installed"), w)
    | Some convert =>
        let '(err, w') := convert docx_path pdf_path w in
        let w'' := Platform.outside (Docx2pdfConvert docx_path pdf_path) w w' in
        match err with
        | Some e => (Raise e, w'')
        | None =>
            if Platform.path_exists p pdf_path w''
            then (Ok pdf_path, w'')
            else (Raise (PdfConversionError "docx2pdf did not create output file"), w'')
        end
    end.

(** What [docx_to_pdf] does before it looks for a backend: the two paths,
    and the directory of the PDF. *)
Definition prepare (p : Platform.t) (input_path : string) (output_path : option string)
  : M (string * string) :=
  fun w =>
    match Platform.resolve p input_path w with
    | Raise e => (Raise e, w)
    | Ok docx_path =>
        match match output_path with
              | None => Platform.with_suffix p docx_path ".pdf"
              | Some o => Platform.resolve p o w
              end with
        | Raise e => (Raise e, w)
        | Ok pdf_path =>
            match make_dir p (Platform.parent p pdf_path) w with
            | (Raise e, w') => (Raise e, w')
            | (Ok _, w') => (Ok (docx_path, pdf_path), w')
            end
        end
    end.

Definition docx_to_pdf (p : Platform.t) (input_path : string)
  (output_path : option string) : M string :=
  paths <-- prepare p input_path output_path ;;
  if truthy (Platform.which p "soffice")
  then _convert_with_libreoffice p paths.1 (Platform.parent p paths.2)
  else if bool_decide (Platform.sys_platform p = "win32")
          || bool_decide (Platform.sys_platform p = "darwin")
  then _convert_with_docx2pdf p paths.1 paths.2
  else raise (PdfConversionError
                "No PDF backend found. Install LibreOffice (soffice on PATH) or docx2pdf.").

(** ** src/api/main.py *)

Definition generate_report (p : Platform.t) (storage : Storage.BrandStorage)
  (request : ReportRequest.t) : M ReportResponse.t :=
  match Storage.get (ReportRequest.client_id request) storage with
  | None => raise (HTTPException 404 "Client not found")
  | Some brand =>
      let context := Api.build_context (Platform.datetime_now p) brand request in
      let output_name := Api.output_name_for (Platform.datetime_now p) request in
      fun w =>
        match render_docx p (ReportRequest.template_name request)
                context (Some output_name) w with
        | (Raise e, w1) =>
            (Raise (HTTPException 500 ("Failed to render report: " +:+ exn_str e)), w1)
        | (Ok docx_path, w1) =>
            let respond pdf_path :=
              {| ReportResponse.client_id := ReportRequest.client_id request;
                 ReportResponse.docx_path := docx_path;
                 ReportResponse.pdf_path := pdf_path;
                 ReportResponse.generated_at := Platform.datetime_utcnow p;
                 ReportResponse.template_used := ReportRequest.template_name request |} in
            if ReportRequest.generate_pdf request then
              match docx_to_pdf p docx_path None w1 with
              | (Raise (PdfConversionError m), w2) =>
                  (Raise (HTTPException 500 ("PDF conversion failed: " +:+ m)), w2)
              | (Raise e, w2) => (Raise e, w2)
              | (Ok pdf_path, w2) => (Ok (respond (Some pdf_path)), w2)
              end
            else (Ok (respond None), w1)
        end
  end.

(** The path a logo uploaded as [filename] is stored under. *)
Definition logo_path_for (p : Platform.t) (client_id filename : string) : string :=
  let suffix := Platform.suffix p filename in
  let ext := if decide (suffix = "") then ".png" else suffix in
  Platform.joinpath p BRANDS_DIR (client_id +:+ "_logo" +:+ ext).

(** [POST /clients/{client_id}/logo]; [filename] is the name of the
    uploaded file.  The answer is whatever [update_logo] returned. *)
Definition upload_logo (p : Platform.t) (client_id filename : string)
  (storage : Storage.BrandStorage) (w : World)
  : Result (option BrandConfig.t) * Storage.BrandStorage * World :=
  if negb (Storage.exists_ client_id storage)
  then (Raise (HTTPException 404 "Client not found"), storage, w)
  else
    let logo_path := logo_path_for p client_id filename in
    let '(r, w') := Platform.write_bytes p logo_path w in
    match r with
    | Raise e => (Raise e, storage, Platform.after w w')
    | Ok _ =>
        let '(brand, storage') :=
          Storage.update_logo (Platform.datetime_utcnow p) client_id logo_path storage in
        (Ok brand, storage', Platform.after w w')
    end.

End OnPlatform.

(* ===================================================================== *)
(** * A POSIX platform without symbolic links *)
(* ===================================================================== *)

Module Posix.

(** ** pathlib.PurePosixPath *)

(** [s.split(c)] *)
Fixpoint split_on (c : ascii) (s : string) : list string :=
  match s with
  | EmptyString => [""]
  | String a r =>
      if decide (a = c) then "" :: split_on c r
      else match split_on c r with
           | x :: xs => String a x :: xs
           | [] => [String a ""]
           end
  end.

Definition is_part (c : string) : bool :=
  negb (bool_decide (c = "")) && negb (bool_decide (c = ".")).

Fixpoint leading (c : ascii) (s : string) : nat :=
  match s with
  | String a r => if decide (a = c) then S (leading c r) else 0
  | EmptyString => 0
  end.

(** A path: its root (none, one slash, or exactly two) and its parts. *)
Record path : Type := { root : string; parts : list string }.

Definition Path (s : string) : path :=
  {| root := match leading "/" s with
             | 0 => ""
             | 2 => "//"
             | _ => "/"
             end;
     parts := List.filter is_part (split_on "/" s) |}.

Fixpoint join_parts (l : list string) : string :=
  match l with
  | [] => ""
  | [x] => x
  | x :: r => x +:+ "/" +:+ join_parts r
  end.

Definition str (p : path) : string :=
  match root p, parts p with
  | EmptyString, [] => "."
  | r, l => r +:+ join_parts l
  end.

(** [a / s] *)
Definition truediv (a : path) (s : string) : path :=
  let b := Path s in
  if decide (root b = "") then {| root := root a; parts := (parts a ++ parts b)%list |} else b.

Definition name (p : path) : string := List.last (parts p) "".

Definition suffix_of (n : string) : string :=
  match rsplit "." n with
  | Some (b, t) =>
      if decide (b = "") then "" else if decide (t = "") then "" else String "." t
  | None => ""
  end.

Definition stem_of (n : string) : string :=
  match rsplit "." n with
  | Some (b, t) => if decide (b = "") then n else if decide (t = "") then n else b
  | None => n
  end.

Definition parent (p : path) : path :=
  {| root := root p; parts := removelast (parts p) |}.

Definition ValueError : exn := OtherError "ValueError" "".

(** The text of an error raised by the operating system is not modelled:
    only its class is. *)
Definition NotADirectoryError : exn := OtherError "NotADirectoryError" "".
Definition IsADirectoryError : exn := OtherError "IsADirectoryError" "".
Definition FileExistsError : exn := OtherError "FileExistsError" "".

Definition with_suffix (p : path) (suffix : string) : Result path :=
  if contains "/" suffix then Raise ValueError
  else if negb (bool_decide (suffix = ""))
          && (negb (is_prefix "." suffix) || bool_decide (suffix = "."))
  then Raise ValueError
  else if decide (name p = "") then Raise ValueError
  else Ok {| root := root p;
             parts := (removelast (parts p) ++ [stem_of (name p) +:+ suffix])%list |}.

(** ** The file system *)

Definition NUL : ascii := ascii_of_N 0.

Fixpoint has_nul (s : string) : bool :=
  match s with
  | EmptyString => false
  | String a r => bool_decide (a = NUL) || has_nul r
  end.

(** [Path(s).resolve()] from the working directory [cwd]: the path made
    absolute, its [..] taken out; there are no links to follow. *)
Definition collapse (l : list string) : list string :=
  fold_left (fun acc c => if decide (c = "..") then removelast acc else (acc ++ [c])%list)
    l [].

Definition start_of (cwd : string) (p : path) : list string :=
  if decide (root p = "") then parts (Path cwd) else [].

Definition resolve (cwd : string) (s : string) : Result path :=
  if has_nul s then Raise ValueError
  else Ok {| root := "/"; parts := collapse (start_of cwd (Path s) ++ parts (Path s))%list |}.

(** The files and directories of a [World] are named by the text of their
    absolute path. *)
Definition key (l : list string) : string := "/" +:+ join_parts l.

Inductive node : Type := NFile | NDir | NNone.

Definition node_at (w : World) (l : list string) : node :=
  match l with
  | [] => NDir
  | _ => if decide (key l ∈ dirs w) then NDir
         else if decide (key l ∈ files w) then NFile else NNone
  end.

Inductive refusal : Type := ENOENT | ENOTDIR.

(** The way to a path, part by part from a directory [cur]: every part
    but the last must be a directory. *)
Fixpoint walk (w : World) (cur rest : list string) : refusal + (list string * node) :=
  match rest with
  | [] => inr (cur, NDir)
  | c :: rest' =>
      if decide (c = "..") then walk w (removelast cur) rest'
      else
        let next := (cur ++ [c])%list in
        match rest' with
        | [] => inr (next, node_at w next)
        | _ =>
            match node_at w next with
            | NDir => walk w next rest'
            | NFile => inl ENOTDIR
            | NNone => inl ENOENT
            end
        end
  end.

Definition locate (cwd : string) (p : path) (w : World) : refusal + (list string * node) :=
  walk w (start_of cwd p) (parts p).

Definition refused (r : refusal) : exn :=
  match r with
  | ENOENT => FileNotFoundError ""
  | ENOTDIR => NotADirectoryError
  end.

(** What [open(Path(s), "rb")] raises. *)
Definition open_read (cwd : string) (s : string) (w : World) : option exn :=
  if has_nul s then Some ValueError
  else match locate cwd (Path s) w with
       | inl r => Some (refused r)
       | inr (_, NFile) => None
       | inr (_, NDir) => Some IsADirectoryError
       | inr (_, NNone) => Some (FileNotFoundError "")
       end.

Definition add_file (k : string) (w : World) : World :=
  {| files := {[k]} ∪ files w; dirs := dirs w; trace := trace w |}.

Definition add_dir (k : string) (w : World) : World :=
  {| files := files w; dirs := {[k]} ∪ dirs w; trace := trace w |}.

(** [open(Path(s), "wb")] and a write. *)
Definition write_bytes (cwd : string) (s : string) (w : World) : Result unit * World :=
  if has_nul s then (Raise ValueError, w)
  else match locate cwd (Path s) w with
       | inl r => (Raise (refused r), w)
       | inr (_, NDir) => (Raise IsADirectoryError, w)
       | inr (l, NFile) => (Ok tt, w)
       | inr (l, NNone) => (Ok tt, add_file (key l) w)
       end.

Definition path_exists (cwd : string) (s : string) (w : World) : bool :=
  if has_nul s then false
  else match locate cwd (Path s) w with
       | inr (_, NFile) | inr (_, NDir) => true
       | _ => false
       end.

Definition is_dir (cwd : string) (p : path) (w : World) : bool :=
  if has_nul (str p) then false
  else match locate cwd p w with
       | inr (_, NDir) => true
       | _ => false
       end.

(** [os.mkdir(p)] *)
Definition os_mkdir (cwd : string) (p : path) (w : World) : Result unit * World :=
  if has_nul (str p) then (Raise ValueError, w)
  else match locate cwd p w with
       | inl r => (Raise (refused r), w)
       | inr (l, NNone) => (Ok tt, add_dir (key l) w)
       | inr (_, _) => (Raise FileExistsError, w)
       end.

Definition is_not_found (e : exn) : bool :=
  match e with FileNotFoundError _ => true | _ => false end.

Definition is_oserror (e : exn) : bool :=
  match e with
  | FileNotFoundError _ => true
  | OtherError cls _ =>
      bool_decide (cls = "NotADirectoryError") || bool_decide (cls = "IsADirectoryError")
      || bool_decide (cls = "FileExistsError")
  | _ => false
  end.

(** [p.mkdir(parents=False, exist_ok=True)] *)
Definition mkdir_exist_ok (cwd : string) (p : path) (w : World) : Result unit * World :=
  match os_mkdir cwd p w with
  | (Ok _, w') => (Ok tt, w')
  | (Raise e, _) =>
      if is_not_found e then (Raise e, w)
      else if is_oserror e && is_dir cwd p w then (Ok tt, w)
      else (Raise e, w)
  end.

(** [p.mkdir(parents=True, exist_ok=True)]; [fuel] bounds the climb to
    the parents and is the number of parts. *)
Fixpoint mkdir_climb (fuel : nat) (cwd : string) (p : path) (w : World)
  : Result unit * World :=
  match os_mkdir cwd p w with
  | (Ok _, w') => (Ok tt, w')
  | (Raise e, _) =>
      if is_not_found e then
        match parts p, fuel with
        | [], _ | _, O => (Raise e, w)
        | _, S fuel' =>
            match mkdir_climb fuel' cwd (parent p) w with
            | (Raise e', w1) => (Raise e', w1)
            | (Ok _, w1) => mkdir_exist_ok cwd p w1
            end
        end
      else if is_oserror e && is_dir cwd p w then (Ok tt, w)
      else (Raise e, w)
  end.

Definition mkdir_parents (cwd : string) (s : string) (w : World) : Result unit * World :=
  mkdir_climb (length (parts (Path s))) cwd (Path s) w.

Definition map_result {A B} (f : A -> B) (r : Result A) : Result B :=
  match r with
  | Ok a => Ok (f a)
  | Raise e => Raise e
  end.

(** A template engine reduced to its file accesses: it opens the template
    for reading and writes the output file. *)
Definition engine (cwd : string) (template_path : string) (context : gmap string json)
  (output_path : string) (w : World) : option exn * World :=
  match open_read cwd template_path w with
  | Some e => (Some e, w)
  | None =>
      match write_bytes cwd output_path w with
      | (Raise e, w') => (Some e, w')
      | (Ok _, w') => (None, w')
      end
  end.

(** The platform of a machine whose working directory is [cwd], with the
    application under [base]; [soffice] says whether the tool is found,
    [run] is the behaviour of [subprocess.run], [convert] is docx2pdf when
    it is installed. *)
Definition machine (cwd base platform : string) (soffice : bool)
  (run : list string -> World -> Result (Z * string) * World)
  (convert : option (string -> string -> World -> option exn * World)) : Platform.t :=
  {| Platform.resolve := fun s _ => map_result str (resolve cwd s);
     Platform.with_suffix := fun s suffix => map_result str (with_suffix (Path s) suffix);
     Platform.parent := fun s => str (parent (Path s));
     Platform.stem := fun s => stem_of (name (Path s));
     Platform.suffix := fun s => suffix_of (name (Path s));
     Platform.joinpath := fun a b => str (truediv (Path a) b);
     Platform.mkdir_parents := mkdir_parents cwd;
     Platform.path_exists := path_exists cwd;
     Platform.open_read := open_read cwd;
     Platform.write_bytes := write_bytes cwd;
     Platform.BASE_DIR := base;
     Platform.sys_platform := platform;
     Platform.which :=
       fun c => if soffice && bool_decide (c = "soffice")
                then Some "/usr/bin/soffice" else None;
     Platform.docxtpl := engine cwd;
     Platform.subprocess_run := run;
     Platform.docx2pdf := convert;
     Platform.datetime_now := Sample.noon;
     Platform.datetime_utcnow := Sample.later |}.

End Posix.

(* ===================================================================== *)
(** * Sample machines *)
(* ===================================================================== *)

Module Lab.

Definition cwd : string := "/srv/app".

(** The tool ends with return code 0 and writes nothing. *)
Definition soffice_quiet (args : list string) (w : World) : Result (Z * string) * World :=
  (Ok (0%Z, ""), w).


(** docx2pdf writing the PDF it was asked for. *)
Definition word (docx_path pdf_path : string) (w : World) : option exn * World :=
  match Posix.write_bytes cwd pdf_path w with
  | (Raise e, w') => (Some e, w')
  | (Ok _, w') => (None, w')
  end.

Definition server : Platform.t :=
  Posix.machine cwd "/srv/app" "linux" true soffice_quiet None.


Definition bare : Platform.t :=
  Posix.machine cwd "/srv/app" "linux" false soffice_quiet None.

Definition mac : Platform.t :=
  Posix.machine cwd "/srv/app" "darwin" false soffice_quiet (Some word).

(** The application directory with one template and no output yet. *)
Definition site : World :=
  {| files := {[ "/srv/app/reports/templates/quarterly.docx" ]};
     dirs := {[ "/srv"; "/srv/app"; "/srv/app/reports"; "/srv/app/reports/templates";
                "/srv/app/brands" ]};
     trace := [] |}.

(** The same, with a file where the output directory should be. *)
Definition blocked : World :=
  {| files := {[ "/srv/app/reports/templates/quarterly.docx"; "/srv/app/reports/output" ]};
     dirs := dirs site;
     trace := [] |}.

(** The same as [site], without the directory the logos go to. *)
Definition no_brands : World :=
  {| files := files site;
     dirs := {[ "/srv"; "/srv/app"; "/srv/app/reports"; "/srv/app/reports/templates" ]};
     trace := [] |}.

(** A request for the quarterly report of a client. *)
Definition quarterly (generate_pdf : bool) : ReportRequest.t :=
  {| ReportRequest.client_id := "acme";
     ReportRequest.template_name := "quarterly.docx";
     ReportRequest.report_date := None;
     ReportRequest.report_period := None;
     ReportRequest.prepared_by := None;
     ReportRequest.executive_summary := None;
     ReportRequest.metrics := [];
     ReportRequest.highlights := [];
     ReportRequest.recommendations := [];
     ReportRequest.contact := None;
     ReportRequest.extra_context := ∅;
     ReportRequest.output_filename := Some "acme_q3.docx";
     ReportRequest.generate_pdf := generate_pdf |}.

End Lab.


(* ===================================================================== *)
(** * The brand store: upsert and delete *)
(* ===================================================================== *)

Module StorageFacts.
Import Storage.

Lemma get_save k st : get k (_save st) = get k st.
Proof. reflexivity. Qed.

(** What [upsert] leaves under the other keys. *)
Lemma upsert_other now brand st k :
  k ≠ BrandConfig.client_id brand ->
  get k (upsert now brand st).2 = get k st.
Proof.
  intros Hk. unfold upsert, get. simpl.
  destruct (_cache st !! BrandConfig.client_id brand); simpl;
    by rewrite lookup_insert_ne.
Qed.

(** C1 (as amended): [upsert] stores and returns the supplied record with
    two fields overwritten.  [created_at] is the stored record's when the
    client_id was present and the current time when it was not; [updated_at]
    is the current time; every other field, [logo_path] among them, is the
    supplied one. *)
Theorem upsert_spec (now : datetime) (brand : BrandConfig.t) (st : BrandStorage) :
  let saved := (upsert now brand st).1 in
  let st' := (upsert now brand st).2 in
  get (BrandConfig.client_id brand) st' = Some saved ∧
  BrandConfig.created_at saved =
    match get (BrandConfig.client_id brand) st with
    | Some existing => BrandConfig.created_at existing
    | None => Some now
    end ∧
  BrandConfig.updated_at saved = Some now ∧
  BrandConfig.client_id saved = BrandConfig.client_id brand ∧
  BrandConfig.display_name saved = BrandConfig.display_name brand ∧
  BrandConfig.primary_color saved = BrandConfig.primary_color brand ∧
  BrandConfig.secondary_color saved = BrandConfig.secondary_color brand ∧
  BrandConfig.font_family saved = BrandConfig.font_family brand ∧
  BrandConfig.logo_path saved = BrandConfig.logo_path brand ∧
  BrandConfig.website_url saved = BrandConfig.website_url brand.
Proof.
  unfold upsert, get. simpl.
  destruct (_cache st !! BrandConfig.client_id brand) as [existing|]; simpl;
    rewrite lookup_insert_eq; repeat split; reflexivity.
Qed.

(** C1 (as stated) fails: a stored logo path does not survive an upsert
    whose body carries none. *)
Lemma upsert_logo_path_replaced :
  ¬ (∀ (now : datetime) (brand existing : BrandConfig.t) (st : BrandStorage),
       get (BrandConfig.client_id brand) st = Some existing ->
       BrandConfig.logo_path (upsert now brand st).1 = BrandConfig.logo_path existing).
Proof.
  intros H.
  specialize (H Sample.later Sample.acme_renamed Sample.acme Sample.acme_store).
  assert (Hget : get "acme" Sample.acme_store = Some Sample.acme) by reflexivity.
  specialize (H Hget). vm_compute in H. discriminate H.
Qed.

(** C7: deleting an absent client_id answers [False] and changes nothing;
    deleting a present one answers [True], removes that key, keeps every
    other record, and makes the store one record smaller. *)
Theorem delete_spec (client_id : string) (st : BrandStorage) :
  match get client_id st with
  | None =>
      delete client_id st = (false, st)
  | Some _ =>
      (delete client_id st).1 = true ∧
      get client_id (delete client_id st).2 = None ∧
      (∀ k, k ≠ client_id -> get k (delete client_id st).2 = get k st) ∧
      size (_cache st) = S (size (_cache (delete client_id st).2))
  end.
Proof.
  unfold delete, get.
  destruct (_cache st !! client_id) as [b|] eqn:E; simpl.
  - split; [reflexivity|]. split; [apply lookup_delete_eq|].
    split; [intros k Hk; by apply lookup_delete_ne|].
    rewrite <- (insert_delete_id (_cache st) client_id b E) at 1.
    apply map_size_insert_None, lookup_delete_eq.
  - reflexivity.
Qed.

End StorageFacts.

(* ===================================================================== *)
(** * ISO 8601 timestamps survive the document *)
(* ===================================================================== *)

Module DatetimeFacts.

Lemma digit_val_digit (n : N) : digit_val (digit n) = Some (n mod 10)%N.
Proof.
  unfold digit_val, digit.
  assert (Hlt : (n mod 10 < 10)%N) by (apply N.mod_upper_bound; discriminate).
  generalize dependent (n mod 10)%N. intros r Hr.
  rewrite N_ascii_embedding by lia.
  replace ((48 <=? 48 + r)%N) with true by (symmetry; apply N.leb_le; lia).
  replace ((48 + r <=? 57)%N) with true by (symmetry; apply N.leb_le; lia).
  simpl. f_equal. lia.
Qed.

(** Reading back a printed field continues with the value of the field
    appended to the digits read so far. *)
Lemma read_digits_digits (w : nat) :
  ∀ (k : nat) (n : N) (rest : string) (acc : N),
    (n < 10 ^ N.of_nat w)%N ->
    read_digits (w + k) (digits w n rest) acc
    = read_digits k rest (acc * 10 ^ N.of_nat w + n)%N.
Proof.
  induction w as [|w IH]; intros k n rest acc Hn.
  - simpl in *. f_equal. lia.
  - cbn [digits].
    replace (S w + k)%nat with (w + S k)%nat by lia.
    assert (Hpow : (10 ^ N.of_nat (S w) = 10 * 10 ^ N.of_nat w)%N).
    { rewrite Nat2N.inj_succ, N.pow_succ_r'. reflexivity. }
    rewrite IH.
    + cbn [read_digits]. rewrite digit_val_digit. f_equal.
      rewrite Hpow. pose proof (N.div_mod n 10). lia.
    + rewrite Hpow in Hn. apply N.Div0.div_lt_upper_bound. lia.
Qed.

Lemma read_field (w : nat) (n : N) (rest : string) :
  (n < 10 ^ N.of_nat w)%N ->
  read_digits w (digits w n rest) 0 = Some (n, rest).
Proof.
  intros Hn. pose proof (read_digits_digits w 0 n rest 0 Hn) as H.
  rewrite Nat.add_0_r in H. rewrite H. reflexivity.
Qed.

(** One printed field read back, and one separator passed. *)
Ltac read_number :=
  rewrite read_field by (simpl; lia); cbn [mbind option_bind].
Ltac read_mark :=
  cbn [expect]; rewrite decide_True by reflexivity; cbn [mbind option_bind].

Lemma parse_hhmm_iso (m : N) :
  (m < 1440)%N -> parse_hhmm (iso_hhmm m) = Some m.
Proof.
  intros Hm. unfold parse_hhmm, iso_hhmm.
  assert (H1 : (m / 60 < 10 ^ N.of_nat 2)%N).
  { apply N.Div0.div_lt_upper_bound. simpl. lia. }
  assert (H2 : (m mod 60 < 10 ^ N.of_nat 2)%N).
  { pose proof (N.mod_upper_bound m 60). simpl. lia. }
  rewrite read_field by exact H1. cbn [mbind option_bind]. read_mark.
  rewrite read_field by exact H2. cbn [mbind option_bind].
  f_equal. pose proof (N.div_mod m 60). lia.
Qed.

Lemma parse_offset_iso (tz : option Z) :
  match tz with Some z => (Z.abs z <? 1440)%Z | None => true end = true ->
  parse_offset (iso_offset tz) = Some tz.
Proof.
  destruct tz as [z|]; [|reflexivity].
  intros Hz. apply Z.ltb_lt in Hz. unfold iso_offset.
  destruct (z =? 0)%Z eqn:E0.
  - apply Z.eqb_eq in E0. subst z. reflexivity.
  - apply Z.eqb_neq in E0. destruct (0 <? z)%Z eqn:Epos.
    + apply Z.ltb_lt in Epos. unfold parse_offset.
      rewrite decide_False by discriminate. rewrite decide_True by reflexivity.
      rewrite parse_hhmm_iso by lia. simpl. do 2 f_equal. lia.
    + apply Z.ltb_ge in Epos. unfold parse_offset.
      rewrite decide_False by discriminate. rewrite decide_False by discriminate.
      rewrite decide_True by reflexivity.
      rewrite parse_hhmm_iso by lia. simpl. do 2 f_equal. lia.
Qed.

Lemma parse_fraction_iso (us : N) (tz : option Z) :
  (us < 1000000)%N ->
  parse_fraction (iso_fraction us (iso_offset tz)) = Some (us, iso_offset tz).
Proof.
  intros Hus. unfold iso_fraction.
  destruct (us =? 0)%N eqn:E.
  - apply N.eqb_eq in E. subst us.
    destruct tz as [z|]; [|reflexivity]. unfold iso_offset.
    destruct (z =? 0)%Z; [reflexivity|]. destruct (0 <? z)%Z; reflexivity.
  - unfold parse_fraction. rewrite decide_True by reflexivity.
    apply read_field. apply N.eqb_neq in E. simpl. lia.
Qed.

(** The bounds [datetime_valid] checks, as propositions. *)
Lemma datetime_valid_bounds (d : datetime) :
  datetime_valid d = true ->
  (year d < 10000 ∧ month d < 100 ∧ day d < 100 ∧ hour d < 100 ∧
   minute d < 100 ∧ second d < 100 ∧ microsecond d < 1000000)%N ∧
  match tzoffset d with Some z => (Z.abs z <? 1440)%Z | None => true end = true.
Proof.
  unfold datetime_valid. rewrite !andb_true_iff.
  rewrite !N.leb_le, !N.ltb_lt.
  intros [[[[[[[[[[Hy1 Hy2] Hm1] Hm2] Hd1] Hd2] Hh] Hmi] Hs] Hus] Htz].
  split; [|exact Htz].
  assert (days_in_month (year d) (month d) <= 31)%N.
  { unfold days_in_month.
    destruct (month d) as [|p]; [lia|].
    do 4 (try destruct p as [p|p|]); try lia; destruct (is_leap (year d)); lia. }
  lia.
Qed.

(** Every valid timestamp is read back from its ISO 8601 text. *)
Lemma fromisoformat_isoformat (d : datetime) :
  datetime_valid d = true -> fromisoformat (isoformat d) = Some d.
Proof.
  intros Hv.
  destruct (datetime_valid_bounds d Hv) as [(Hy & Hmo & Hd & Hh & Hmi & Hs & Hus) Htz].
  unfold fromisoformat, isoformat.
  do 5 (read_number; read_mark). read_number.
  rewrite parse_fraction_iso by exact Hus. cbn [mbind option_bind].
  rewrite parse_offset_iso by exact Htz. cbn [mbind option_bind].
  destruct d; simpl in *. rewrite Hv. reflexivity.
Qed.

End DatetimeFacts.

(* ===================================================================== *)
(** * The brand document: save, then load *)
(* ===================================================================== *)

Module PersistenceFacts.
Import Storage.

Local Arguments BrandConfig.validate_str : simpl never.
Local Arguments BrandConfig.validate_opt_str : simpl never.
Local Arguments BrandConfig.validate_opt_url : simpl never.
Local Arguments BrandConfig.validate_opt_datetime : simpl never.

Lemma validate_opt_str_dump (x : option string) :
  BrandConfig.validate_opt_str (Some (BrandConfig.dump_opt_str x)) = Some x.
Proof. destruct x; reflexivity. Qed.

Lemma validate_opt_url_dump (x : option string) :
  BrandConfig.opt_valid BrandConfig.http_scheme x = true ->
  BrandConfig.validate_opt_url (Some (BrandConfig.dump_opt_str x)) = Some x.
Proof.
  destruct x as [s|]; [|reflexivity].
  unfold BrandConfig.validate_opt_url. simpl. intros ->. reflexivity.
Qed.

Lemma validate_opt_datetime_dump (x : option datetime) :
  BrandConfig.opt_valid datetime_valid x = true ->
  BrandConfig.validate_opt_datetime (Some (BrandConfig.dump_opt_datetime x)) = Some x.
Proof.
  destruct x as [d|]; [|reflexivity].
  unfold BrandConfig.validate_opt_datetime. simpl. intros Hd.
  rewrite DatetimeFacts.fromisoformat_isoformat by exact Hd. reflexivity.
Qed.

(** One record: the constructor accepts what [model_dump] wrote and builds
    the same record. *)
Lemma validate_model_dump (b : BrandConfig.t) :
  BrandConfig.wf b = true ->
  BrandConfig.validate (BrandConfig.model_dump_json b) = Some b.
Proof.
  unfold BrandConfig.wf. rewrite !andb_true_iff. intros [[Hu Hc] Hup].
  destruct b as [cid dn pc sc ff lp wu ca ua]. simpl in Hu, Hc, Hup.
  unfold BrandConfig.validate, BrandConfig.model_dump_json. simpl.
  rewrite !validate_opt_str_dump.
  rewrite validate_opt_url_dump by exact Hu.
  rewrite !validate_opt_datetime_dump by assumption.
  reflexivity.
Qed.

(** [load_items] keeps the keys and validates each value. *)
Lemma load_items_elem items :
  ∀ l, load_items items = Some l ->
       ∀ k b, (k, b) ∈ l ↔ ∃ v, (k, v) ∈ items ∧ BrandConfig.validate v = Some b.
Proof.
  induction items as [|[k0 v0] items IH]; intros l Hl k b.
  - simpl in Hl. injection Hl as <-. split.
    + intros H. by apply elem_of_nil in H.
    + intros (v & H & _). by apply elem_of_nil in H.
  - simpl in Hl.
    destruct (BrandConfig.validate v0) as [b0|] eqn:Ev; [|discriminate].
    destruct (load_items items) as [bs|] eqn:Eb; [|discriminate].
    simpl in Hl. injection Hl as <-.
    rewrite elem_of_cons, (IH bs eq_refl). split.
    + intros [Heq | (v & Hin & Hv)].
      * injection Heq as -> ->. exists v0. split; [left|]; done.
      * exists v. split; [right|]; done.
    + intros (v & Hin & Hv). apply elem_of_cons in Hin as [Heq | Hin].
      * injection Heq as -> ->. left. congruence.
      * right. by exists v.
Qed.

Lemma load_items_keys items :
  ∀ l, load_items items = Some l -> l.*1 = items.*1.
Proof.
  induction items as [|[k0 v0] items IH]; intros l Hl.
  - simpl in Hl. by injection Hl as <-.
  - simpl in Hl.
    destruct (BrandConfig.validate v0) as [b0|]; [|discriminate].
    destruct (load_items items) as [bs|]; [|discriminate].
    simpl in Hl. injection Hl as <-. simpl. f_equal. by apply IH.
Qed.

Lemma load_items_total items :
  (∀ k v, (k, v) ∈ items -> is_Some (BrandConfig.validate v)) ->
  is_Some (load_items items).
Proof.
  induction items as [|[k0 v0] items IH]; intros Hall.
  - by eexists.
  - simpl.
    destruct (Hall k0 v0) as [b0 ->]; [left|].
    destruct IH as [bs ->].
    + intros k v Hin. apply (Hall k v). by right.
    + simpl. by eexists.
Qed.

(** [dict(items)] agrees with stdpp's [list_to_map] on the reversed list. *)
Lemma dict_of_items_reverse {V} (l : list (string * V)) :
  dict_of_items l = list_to_map (reverse l).
Proof.
  unfold dict_of_items, reverse. rewrite <- rev_alt, <- fold_left_rev_right.
  induction (rev l) as [|[k v] r IH]; [reflexivity|].
  simpl. by rewrite <- IH.
Qed.

Lemma dict_of_items_lookup {V} (l : list (string * V)) k (v : V) :
  NoDup l.*1 -> dict_of_items l !! k = Some v ↔ (k, v) ∈ l.
Proof.
  intros Hnd. rewrite dict_of_items_reverse.
  rewrite <- elem_of_list_to_map.
  - by rewrite elem_of_reverse.
  - by rewrite fmap_reverse, reverse_Permutation.
Qed.

Lemma dict_of_items_to_list {V} (m : gmap string V) :
  dict_of_items (map_to_list m) = m.
Proof.
  apply map_eq. intros k. apply option_eq. intros v.
  rewrite dict_of_items_lookup by apply NoDup_fst_map_to_list.
  apply elem_of_map_to_list.
Qed.

(** The items of a saved document are the dumped records of the cache. *)
Lemma dump_items_elem (cache : gmap string BrandConfig.t) k v :
  (k, v) ∈ map_to_list (BrandConfig.model_dump_json <$> cache)
  ↔ ∃ b, cache !! k = Some b ∧ v = BrandConfig.model_dump_json b.
Proof.
  rewrite elem_of_map_to_list, lookup_fmap_Some. split.
  - intros (b & Hv & Hb). by exists b.
  - intros (b & Hb & Hv). by exists b.
Qed.

(** C6: a store whose records are valid instances is read back unchanged
    from the document it saved: a fresh instance over that document holds,
    under every client_id, a record equal to the original in every field. *)
Theorem save_load_roundtrip (st : BrandStorage) :
  (∀ k b, get k st = Some b -> BrandConfig.wf b = true) ->
  _cache (init (storage_file (_save st))) = _cache st ∧
  ∀ k, get k (init (storage_file (_save st))) = get k st.
Proof.
  intros Hwf.
  assert (Heq : _cache (init (storage_file (_save st))) = _cache st).
  { unfold init, _save, _load, dump. simpl. rewrite dict_of_items_to_list.
    set (items := map_to_list (BrandConfig.model_dump_json <$> _cache st)).
    destruct (load_items_total items) as [l Hl].
    { intros k v Hin. apply dump_items_elem in Hin as (b & Hb & ->).
      rewrite validate_model_dump; [by eexists|]. by apply (Hwf k). }
    rewrite Hl. apply map_eq. intros k. apply option_eq. intros b.
    rewrite dict_of_items_lookup.
    - rewrite (load_items_elem items l Hl). split.
      + intros (v & Hin & Hv). apply dump_items_elem in Hin as (b' & Hb' & ->).
        rewrite validate_model_dump in Hv by (by apply (Hwf k)). congruence.
      + intros Hb. exists (BrandConfig.model_dump_json b). split.
        * apply dump_items_elem. by exists b.
        * apply validate_model_dump. by apply (Hwf k).
    - rewrite (load_items_keys items l Hl). apply NoDup_fst_map_to_list. }
  split; [exact Heq|]. intros k. unfold get. by rewrite Heq.
Qed.

Lemma save_load_roundtrip_witness :
  _cache (init (storage_file (_save Sample.acme_store))) = _cache Sample.acme_store ∧
  ∀ k, get k (init (storage_file (_save Sample.acme_store))) = get k Sample.acme_store.
Proof.
  apply (save_load_roundtrip Sample.acme_store).
  intros k b H. change (({[ "acme" := Sample.acme ]} : gmap _ _) !! k = Some b) in H.
  apply lookup_singleton_Some in H as [_ <-]. reflexivity.
Defined.

End PersistenceFacts.

(* ===================================================================== *)
(** * The report context *)
(* ===================================================================== *)

Module ContextFacts.
Import Api.

Lemma dict_merge_lookup {V} (base extra : gmap string V) k :
  dict_merge base extra !! k =
  match extra !! k with
  | Some v => Some v
  | None => base !! k
  end.
Proof.
  unfold dict_merge. rewrite lookup_union.
  destruct (extra !! k), (base !! k); reflexivity.
Qed.

(** The ten keys of the literal and the values computed for them. *)
Lemma computed_context_lookup now brand request k :
  computed_context now brand request !! k =
  if decide (k = "brand") then Some (brand_styling brand)
  else if decide (k = "contact") then
    Some (match ReportRequest.contact request with
          | Some c => ContactInfo.model_dump c
          | None => JDict []
          end)
  else if decide (k = "recommendations") then
    Some (JList (RecommendationItem.model_dump <$> ReportRequest.recommendations request))
  else if decide (k = "highlights") then
    Some (JList (JStr <$> ReportRequest.highlights request))
  else if decide (k = "metrics") then
    Some (JList (MetricItem.model_dump <$> ReportRequest.metrics request))
  else if decide (k = "executive_summary") then
    Some (JStr (str_or (ReportRequest.executive_summary request) ""))
  else if decide (k = "prepared_by") then
    Some (JStr (str_or (ReportRequest.prepared_by request) ""))
  else if decide (k = "report_period") then
    Some (JStr (str_or (ReportRequest.report_period request) ""))
  else if decide (k = "report_date") then
    Some (JStr (str_or (ReportRequest.report_date request) (strftime_B_d_Y now)))
  else if decide (k = "client_name") then
    Some (JStr (BrandConfig.display_name brand))
  else None.
Proof.
  unfold computed_context, computed_items, dict_of_items. cbn [fold_left fst snd].
  repeat (rewrite lookup_insert; case_decide;
          [ subst k; rewrite decide_True by reflexivity; reflexivity
          | rewrite decide_False by congruence ]).
  apply lookup_empty.
Qed.

(** C4: in the built context every key of [extra_context] carries the
    [extra_context] value, the computed [brand] mapping included; a key that
    [extra_context] does not have carries its computed value. *)
Theorem extra_context_shadows (now : datetime) (brand : BrandConfig.t)
  (request : ReportRequest.t) :
  (∀ k, build_context now brand request !! k =
        match ReportRequest.extra_context request !! k with
        | Some v => Some v
        | None => computed_context now brand request !! k
        end) ∧
  computed_context now brand request !! "brand" = Some (brand_styling brand) ∧
  build_context now brand request !! "brand" =
    Some (default (brand_styling brand) (ReportRequest.extra_context request !! "brand")).
Proof.
  assert (Hb : computed_context now brand request !! "brand" = Some (brand_styling brand)).
  { rewrite computed_context_lookup. reflexivity. }
  split; [|split].
  - intros k. apply dict_merge_lookup.
  - exact Hb.
  - unfold build_context. rewrite dict_merge_lookup, Hb.
    destruct (ReportRequest.extra_context request !! "brand"); reflexivity.
Qed.

(** C10 (as amended): when [extra_context] does not name the key,
    [report_date] is the supplied text if one is supplied and it is not
    empty, and the current date as "Month Day, Year" if it is absent or
    empty; the three other text fields are the supplied text, or the empty
    string when absent. *)
Theorem text_field_defaults (now : datetime) (brand : BrandConfig.t)
  (request : ReportRequest.t) :
  let ctx := build_context now brand request in
  let extra := ReportRequest.extra_context request in
  (extra !! "report_date" = None ->
   ctx !! "report_date" =
     Some (JStr match ReportRequest.report_date request with
                | Some s => if decide (s = "") then strftime_B_d_Y now else s
                | None => strftime_B_d_Y now
                end)) ∧
  (extra !! "report_period" = None ->
   ctx !! "report_period" = Some (JStr (default "" (ReportRequest.report_period request)))) ∧
  (extra !! "prepared_by" = None ->
   ctx !! "prepared_by" = Some (JStr (default "" (ReportRequest.prepared_by request)))) ∧
  (extra !! "executive_summary" = None ->
   ctx !! "executive_summary" =
     Some (JStr (default "" (ReportRequest.executive_summary request)))).
Proof.
  assert (Hor : ∀ x, str_or x "" = default "" x).
  { intros [s|]; simpl; [|reflexivity]. by case_decide. }
  unfold build_context. repeat split; intros Hx;
    rewrite dict_merge_lookup, Hx, computed_context_lookup; simpl;
    rewrite ?Hor; reflexivity.
Qed.

Lemma text_field_defaults_witness :
  build_context Sample.noon Sample.acme (Sample.request "acme" None ∅) !! "report_date"
    = Some (JStr "January 05, 2025") ∧
  build_context Sample.noon Sample.acme (Sample.request "acme" None ∅) !! "report_period"
    = Some (JStr "Q1 2025") ∧
  build_context Sample.noon Sample.acme (Sample.request "acme" None ∅) !! "prepared_by"
    = Some (JStr "") ∧
  build_context Sample.noon Sample.acme (Sample.request "acme" None ∅) !! "executive_summary"
    = Some (JStr "").
Proof.
  destruct (text_field_defaults Sample.noon Sample.acme (Sample.request "acme" None ∅))
    as (H1 & H2 & H3 & H4).
  split; [|split; [|split]].
  - rewrite H1 by reflexivity. reflexivity.
  - rewrite H2 by reflexivity. reflexivity.
  - rewrite H3 by reflexivity. reflexivity.
  - rewrite H4 by reflexivity. reflexivity.
Defined.

(** C10 (as stated) fails twice over: a supplied but empty [report_date]
    is replaced by the current date, and a supplied [report_date] is
    replaced by an [extra_context] entry of that name. *)
Lemma supplied_report_date_not_kept :
  (¬ ∀ now brand request s,
       ReportRequest.extra_context request = ∅ ->
       ReportRequest.report_date request = Some s ->
       build_context now brand request !! "report_date" = Some (JStr s)) ∧
  (¬ ∀ now brand request s,
       s ≠ "" ->
       ReportRequest.report_date request = Some s ->
       build_context now brand request !! "report_date" = Some (JStr s)).
Proof.
  split; intros H.
  - specialize (H Sample.noon Sample.acme (Sample.request "acme" (Some "") ∅) ""
                  eq_refl eq_refl).
    vm_compute in H. discriminate H.
  - specialize (H Sample.noon Sample.acme
                  (Sample.request "acme" (Some "2024-12-31")
                     {[ "report_date" := JStr "yesterday" ]}) "2024-12-31").
    assert (Hne : "2024-12-31" ≠ "") by discriminate.
    specialize (H Hne eq_refl). vm_compute in H. discriminate H.
Qed.

End ContextFacts.

(* ===================================================================== *)
(** * The renderer *)
(* ===================================================================== *)

Module RendererFacts.
Import Renderer.

Lemma contains_cons needle c rest :
  contains needle (String c rest) = false ->
  is_prefix needle (String c rest) = false ∧ contains needle rest = false.
Proof. simpl. intros H. by apply orb_false_iff in H. Qed.

(** A string without an occurrence of [old] is left as it is. *)
Lemma str_replace_absent old new s :
  contains old s = false -> str_replace old new s = s.
Proof.
  unfold str_replace. induction s as [|c r IH]; [reflexivity|].
  intros H. apply contains_cons in H as [Hp Hc].
  cbn [replace_go]. rewrite Hp. f_equal. by apply IH.
Qed.

(** No occurrence of [".docx"] begins inside [s] and ends inside a
    following [".docx"]: the text has no proper prefix that is also a
    suffix. *)
Lemma docx_occurrence_within (s : string) :
  is_prefix ".docx" (s +:+ ".docx") = true ->
  s = "" ∨ is_prefix ".docx" s = true.
Proof.
  destruct s as [|c1 [|c2 [|c3 [|c4 [|c5 r]]]]]; [by left|..]; intros H; right;
    simpl in H |- *;
    repeat (case_decide; [subst|discriminate H]); try discriminate H; reflexivity.
Qed.

Lemma default_output_name_stem (stem : string) :
  contains ".docx" stem = false ->
  default_output_name (stem +:+ ".docx") = stem +:+ "_rendered.docx".
Proof.
  unfold default_output_name, str_replace.
  induction stem as [|c r IH]; [reflexivity|].
  intros H. apply contains_cons in H as [Hp Hc].
  change (String c r +:+ ".docx") with (String c (r +:+ ".docx")).
  cbn [replace_go].
  destruct (is_prefix ".docx" (String c (r +:+ ".docx"))) eqn:E.
  - apply (docx_occurrence_within (String c r)) in E as [E|E]; congruence.
  - change (String c r +:+ "_rendered.docx") with (String c (r +:+ "_rendered.docx")).
    f_equal. by apply IH.
Qed.

(** For a name [stem.docx] whose stem has no [".docx"] in it the derived
    name is [stem_rendered.docx]; a name with no [".docx"] in it is used as
    it is. *)
Lemma default_output_name_spec (stem : string) :
  contains ".docx" stem = false ->
  default_output_name (stem +:+ ".docx") = stem +:+ "_rendered.docx" ∧
  default_output_name stem = stem.
Proof.
  intros H. split.
  - by apply default_output_name_stem.
  - by apply str_replace_absent.
Qed.

Lemma default_output_name_spec_witness :
  default_output_name "report.docx" = "report_rendered.docx" ∧
  default_output_name "report" = "report".
Proof.
  apply (default_output_name_spec "report"). reflexivity.
Defined.

(** The replacement is not confined to the extension. *)
Lemma default_output_name_not_claimed :
  ¬ (∀ template_name,
       default_output_name template_name = claimed_output_name template_name).
Proof.
  intros H. specialize (H "archive.docx.docx"). vm_compute in H. discriminate H.
Qed.

(** Every call of [render_docx] reaches the template engine once, and with
    the files the caller had. *)
Lemma render_docx_trace h template_name context output_name w :
  ∃ out,
    trace (render_docx h template_name context output_name w).2
    = (trace w ++ [DocxTemplateCall (path_join (TEMPLATE_DIR h) template_name) out])%list.
Proof.
  unfold render_docx, Host.bind, mkdir. simpl.
  destruct (docxtpl h _ _ _ _) as [[e|] fs]; simpl; eauto.
Qed.

(** The engine's error is what [render_docx] raises. *)
Lemma render_docx_error h template_name context output_name w e :
  (docxtpl h (path_join (TEMPLATE_DIR h) template_name) context
     (path_join (OUTPUT_DIR h) (default (default_output_name template_name) output_name))
     (files w)).1 = Some e ->
  (render_docx h template_name context output_name w).1 = Raise e.
Proof.
  unfold render_docx, Host.bind, mkdir. simpl. intros He.
  destruct output_name as [n|]; simpl in *;
    destruct (docxtpl h _ _ _ _) as [err fs]; simpl in *; subst err; reflexivity.
Qed.


End RendererFacts.

(* ===================================================================== *)
(** * The converter *)
(* ===================================================================== *)

Module PdfFacts.
Import Pdf.

(** The PDF path [docx_to_pdf] aims at. *)
Lemma libreoffice_branch h input_path output_path w :
  truthy (which h "soffice") = true ->
  docx_to_pdf h input_path output_path w
  = _convert_with_libreoffice h (resolve input_path)
      (path_parent (match output_path with
                    | None => with_suffix (resolve input_path) ".pdf"
                    | Some o => resolve o
                    end))
      (mkdir (path_parent (match output_path with
                           | None => with_suffix (resolve input_path) ".pdf"
                           | Some o => resolve o
                           end)) w).2.
Proof. intros Hw. unfold docx_to_pdf, Host.bind. simpl. by rewrite Hw. Qed.

(** A non-zero exit status of [soffice] is a [PdfConversionError] carrying
    the tool's standard error. *)
Lemma libreoffice_nonzero_exit h docx_path output_dir w :
  (subprocess_run h (soffice_args docx_path output_dir) (files w)).1.1 ≠ 0%Z ->
  (_convert_with_libreoffice h docx_path output_dir w).1
  = Raise (PdfConversionError
             ("LibreOffice failed: "
              +:+ (subprocess_run h (soffice_args docx_path output_dir) (files w)).1.2)).
Proof.
  unfold _convert_with_libreoffice.
  destruct (subprocess_run h _ _) as [[rc err] fs]. simpl. intros Hrc.
  by rewrite decide_True.
Qed.

(** After exit status 0 the path is returned whatever is on disk. *)
Lemma libreoffice_zero_exit h docx_path output_dir w :
  (subprocess_run h (soffice_args docx_path output_dir) (files w)).1.1 = 0%Z ->
  (_convert_with_libreoffice h docx_path output_dir w).1
  = Ok (path_join output_dir (path_stem docx_path +:+ ".pdf")).
Proof.
  unfold _convert_with_libreoffice.
  destruct (subprocess_run h _ _) as [[rc err] fs]. simpl. intros ->.
  reflexivity.
Qed.

(** [docx2pdf] returning without the output file is a [PdfConversionError]. *)
Lemma docx2pdf_missing_output h convert docx_path pdf_path w :
  docx2pdf h = Some convert ->
  (convert docx_path pdf_path (files w)).1 = None ->
  pdf_path ∉ (convert docx_path pdf_path (files w)).2 ->
  (_convert_with_docx2pdf h docx_path pdf_path w).1
  = Raise (PdfConversionError "docx2pdf did not create output file").
Proof.
  unfold _convert_with_docx2pdf. intros -> Herr Hout.
  destruct (convert _ _ _) as [err fs]. simpl in *. subst err.
  by rewrite decide_False.
Qed.

(** With no backend on the machine the call raises a [PdfConversionError]. *)
Lemma no_backend_raises h input_path output_path w :
  truthy (which h "soffice") = false ->
  native_platform h = false ∨ docx2pdf h = None ->
  ∃ msg, (docx_to_pdf h input_path output_path w).1 = Raise (PdfConversionError msg).
Proof.
  intros Hw Hno. unfold docx_to_pdf, Host.bind. simpl. rewrite Hw.
  destruct (native_platform h) eqn:Ep.
  - destruct Hno as [Hno|Hno]; [discriminate|].
    unfold _convert_with_docx2pdf. rewrite Hno. by eexists.
  - by eexists.
Qed.

(** A conversion never shortens the record of outside calls. *)
Lemma docx_to_pdf_trace_length h input_path output_path w :
  length (trace w) <= length (trace (docx_to_pdf h input_path output_path w).2).
Proof.
  unfold docx_to_pdf, Host.bind. simpl.
  destruct (truthy (which h "soffice")).
  - unfold _convert_with_libreoffice. simpl.
    destruct (subprocess_run h _ _) as [[rc err] fs].
    case_decide; simpl; rewrite length_app; lia.
  - destruct (native_platform h); [|simpl; lia].
    unfold _convert_with_docx2pdf. simpl.
    destruct (docx2pdf h) as [convert|]; [|simpl; lia].
    destruct (convert _ _ _) as [[e|] fs]; [|case_decide];
      simpl; rewrite length_app; lia.
Qed.

(** C2, at the failing input: [soffice] is on the path, exits with status 0
    and writes nothing; the call returns the PDF path although no such file
    exists. *)
Theorem libreoffice_output_unchecked :
  let r := docx_to_pdf Sample.silent_soffice "/srv/app/reports/output/acme.docx" None
             Sample.disk in
  r.1 = Ok "/srv/app/reports/output/acme.pdf" ∧
  "/srv/app/reports/output/acme.pdf" ∉ files r.2.
Proof.
  split.
  - vm_compute. reflexivity.
  - intros Hin. apply (bool_decide_eq_true_2 _) in Hin.
    vm_compute in Hin. discriminate Hin.
Qed.

End PdfFacts.

(* ===================================================================== *)
(** * Report generation *)
(* ===================================================================== *)

Module ApiFacts.
Import Api.

(** C5: for a client_id the store does not hold, the request ends in a 404
    and the world is as it was: the template engine was not called, no tool
    was run, no file was written. *)
Theorem generate_report_unknown_client (h : Host) (storage : Storage.BrandStorage)
  (request : ReportRequest.t) (w : World) :
  Storage.get (ReportRequest.client_id request) storage = None ->
  generate_report h storage request w
  = (Raise (HTTPException 404 "Client not found"), w).
Proof. intros Hget. unfold generate_report. by rewrite Hget. Qed.

Lemma generate_report_unknown_client_witness :
  generate_report Sample.bare_linux Sample.empty_store
    (Sample.request "ghost" None ∅) Sample.disk
  = (Raise (HTTPException 404 "Client not found"), Sample.disk).
Proof.
  apply (generate_report_unknown_client Sample.bare_linux Sample.empty_store
           (Sample.request "ghost" None ∅) Sample.disk).
  reflexivity.
Defined.

(** A known client does reach the template engine. *)
Lemma generate_report_known_client h storage request w brand :
  Storage.get (ReportRequest.client_id request) storage = Some brand ->
  trace (generate_report h storage request w).2 ≠ trace w.
Proof.
  intros Hget. unfold generate_report. rewrite Hget.
  destruct (RendererFacts.render_docx_trace h (ReportRequest.template_name request)
              (build_context (datetime_now h) brand request)
              (Some (output_name_for (datetime_now h) request)) w) as [out Hout].
  destruct (Renderer.render_docx h _ _ _ w) as [[docx_path|e] w1] eqn:Er; simpl in Hout.
  - destruct (ReportRequest.generate_pdf request).
    + pose proof (PdfFacts.docx_to_pdf_trace_length h docx_path None w1) as Hlen.
      rewrite Hout, length_app in Hlen. simpl in Hlen.
      destruct (Pdf.docx_to_pdf h docx_path None w1) as [[p|[]] w2]; simpl in *;
        intros Heq; rewrite Heq in Hlen; lia.
    + simpl. rewrite Hout. intros Heq.
      apply (f_equal length) in Heq. rewrite length_app in Heq. simpl in Heq. lia.
  - simpl. rewrite Hout. intros Heq.
    apply (f_equal length) in Heq. rewrite length_app in Heq. simpl in Heq. lia.
Qed.

End ApiFacts.

(* ===================================================================== *)
(** * Runs on sample data *)
(* ===================================================================== *)

Module Runs.

Example isoformat_fraction :
  isoformat Sample.later = "2025-03-09T08:30:15.250000".
Proof. vm_compute. reflexivity. Qed.

Example fromisoformat_offset :
  fromisoformat "2025-01-05T09:30:00+05:30" =
  Some {| year := 2025; month := 1; day := 5; hour := 9; minute := 30;
          second := 0; microsecond := 0; tzoffset := Some 330%Z |}.
Proof. vm_compute. reflexivity. Qed.

Example fromisoformat_bad_day : fromisoformat "2025-02-30T09:30:00" = None.
Proof. vm_compute. reflexivity. Qed.

Example default_name_sample :
  Renderer.default_output_name "sample_report.docx" = "sample_report_rendered.docx".
Proof. vm_compute. reflexivity. Qed.

Example default_name_twice :
  Renderer.default_output_name "archive.docx.docx"
  = "archive_rendered.docx_rendered.docx".
Proof. vm_compute. reflexivity. Qed.

Example default_name_other_suffix :
  Renderer.default_output_name "report.dotx" = "report.dotx".
Proof. vm_compute. reflexivity. Qed.

Example with_suffix_pdf :
  with_suffix "/srv/app/reports/output/acme.docx" ".pdf"
  = "/srv/app/reports/output/acme.pdf".
Proof. vm_compute. reflexivity. Qed.

(** A second upsert keeps [created_at], moves [updated_at], takes the name. *)
Example upsert_twice :
  let st1 := (Storage.upsert Sample.noon Sample.acme_renamed Sample.empty_store).2 in
  let saved := (Storage.upsert Sample.later Sample.acme st1).1 in
  BrandConfig.created_at saved = Some Sample.noon ∧
  BrandConfig.updated_at saved = Some Sample.later ∧
  BrandConfig.display_name saved = "Acme Co".
Proof. vm_compute. repeat split; reflexivity. Qed.

(** A known client, no PDF asked for: the document path, and no PDF path. *)
Example generate_known_client :
  (Api.generate_report Sample.bare_linux Sample.acme_store
     (Sample.request "acme" None ∅) Sample.disk).1
  = Ok {| ReportResponse.client_id := "acme";
          ReportResponse.docx_path :=
            "/srv/app/reports/output/acme_report_20250105_120000.docx";
          ReportResponse.pdf_path := None;
          ReportResponse.generated_at := Sample.noon;
          ReportResponse.template_used := "sample_report.docx" |}.
Proof. vm_compute. reflexivity. Qed.

(** No backend on a Linux machine. *)
Example convert_without_backend :
  (Pdf.docx_to_pdf Sample.bare_linux "/srv/app/reports/output/acme.docx" None
     Sample.disk).1
  = Raise (PdfConversionError
             "No PDF backend found. Install LibreOffice (soffice on PATH) or docx2pdf.").
Proof. vm_compute. reflexivity. Qed.

End Runs.

(* ===================================================================== *)
(** * The brand store: the other operations, and how they compose *)
(* ===================================================================== *)

Module StorageLaws.
Import Storage StoreInvariants.

(** X1: [update_logo] on a client_id the store does not hold answers [None]
    and changes nothing, the file included; on one it holds, the record
    stored and returned has the new logo path and the current time as
    [updated_at], every other field (with [created_at]) as before, and the
    other records are untouched. *)
Theorem update_logo_spec (now : datetime) (client_id logo_path : string)
  (st : BrandStorage) :
  match get client_id st with
  | None => update_logo now client_id logo_path st = (None, st)
  | Some old =>
      ∃ brand,
        (update_logo now client_id logo_path st).1 = Some brand ∧
        get client_id (update_logo now client_id logo_path st).2 = Some brand ∧
        BrandConfig.logo_path brand = Some logo_path ∧
        BrandConfig.updated_at brand = Some now ∧
        BrandConfig.created_at brand = BrandConfig.created_at old ∧
        BrandConfig.client_id brand = BrandConfig.client_id old ∧
        BrandConfig.display_name brand = BrandConfig.display_name old ∧
        BrandConfig.primary_color brand = BrandConfig.primary_color old ∧
        BrandConfig.secondary_color brand = BrandConfig.secondary_color old ∧
        BrandConfig.font_family brand = BrandConfig.font_family old ∧
        BrandConfig.website_url brand = BrandConfig.website_url old ∧
        ∀ k, k ≠ client_id ->
             get k (update_logo now client_id logo_path st).2 = get k st
  end.
Proof.
  unfold update_logo, get.
  destruct (_cache st !! client_id) as [old|]; [|reflexivity].
  eexists. simpl. rewrite lookup_insert_eq.
  repeat (split; [reflexivity|]).
  intros k Hk. by rewrite lookup_insert_ne.
Qed.

(** X2: [upsert] touches one key: the client_ids held afterwards are those
    held before together with the upserted one, every other client_id keeps
    its record, and the store grows by one record exactly when the
    client_id is new. *)
Theorem upsert_footprint (now : datetime) (brand : BrandConfig.t) (st : BrandStorage) :
  let st' := (upsert now brand st).2 in
  dom (_cache st') = {[ BrandConfig.client_id brand ]} ∪ dom (_cache st) ∧
  (∀ k, k ≠ BrandConfig.client_id brand -> get k st' = get k st) ∧
  size (_cache st') =
    match get (BrandConfig.client_id brand) st with
    | Some _ => size (_cache st)
    | None => S (size (_cache st))
    end.
Proof.
  unfold upsert, get. simpl.
  destruct (_cache st !! BrandConfig.client_id brand) as [old|] eqn:E; simpl.
  - split; [apply dom_insert_L|]. split.
    + intros k Hk. by rewrite lookup_insert_ne.
    + by rewrite map_size_insert, E.
  - split; [apply dom_insert_L|]. split.
    + intros k Hk. by rewrite lookup_insert_ne.
    + by rewrite map_size_insert, E.
Qed.

(** X3: a store whose file holds the document of its cache stays so under
    [upsert], [update_logo] and [delete], whether or not they find the
    client_id. *)
Theorem mutators_keep_synced (now : datetime) (brand : BrandConfig.t)
  (client_id logo_path : string) (st : BrandStorage) :
  synced st ->
  synced (upsert now brand st).2 ∧
  synced (update_logo now client_id logo_path st).2 ∧
  synced (delete client_id st).2.
Proof.
  intros Hs. unfold synced, upsert, update_logo, delete.
  split; [reflexivity|].
  destruct (_cache st !! client_id); simpl; split; done.
Qed.

Lemma mutators_keep_synced_witness :
  synced (upsert Sample.later Sample.acme_renamed Sample.acme_store).2 ∧
  synced (update_logo Sample.later "ghost" "brands/ghost_logo.png" Sample.acme_store).2 ∧
  synced (delete "ghost" Sample.acme_store).2.
Proof.
  apply (mutators_keep_synced Sample.later Sample.acme_renamed "ghost"
           "brands/ghost_logo.png" Sample.acme_store).
  reflexivity.
Defined.

(** X4: a store that keeps every record under its own client_id still does
    after [upsert], [update_logo] and [delete]. *)
Theorem mutators_keep_keyed (now : datetime) (brand : BrandConfig.t)
  (client_id logo_path : string) (st : BrandStorage) :
  keyed st ->
  keyed (upsert now brand st).2 ∧
  keyed (update_logo now client_id logo_path st).2 ∧
  keyed (delete client_id st).2.
Proof.
  intros Hk. unfold keyed, get in *. split; [|split].
  - intros k b. unfold upsert. simpl.
    destruct (_cache st !! BrandConfig.client_id brand); simpl;
      (destruct (decide (k = BrandConfig.client_id brand)) as [->|Hne];
       [ rewrite lookup_insert_eq; by intros [= <-]
       | rewrite lookup_insert_ne by done; apply Hk ]).
  - intros k b. unfold update_logo.
    destruct (_cache st !! client_id) as [old|] eqn:E; simpl; [|apply Hk].
    destruct (decide (k = client_id)) as [->|Hne].
    + rewrite lookup_insert_eq. intros [= <-]. simpl. by apply Hk.
    + rewrite lookup_insert_ne by done. apply Hk.
  - intros k b. unfold delete.
    destruct (_cache st !! client_id) as [old|] eqn:E; simpl; [|apply Hk].
    intros Hl. apply lookup_delete_Some in Hl as [_ Hl]. by apply Hk.
Qed.

Lemma acme_store_keyed : keyed Sample.acme_store.
Proof.
  intros k b H. change (({[ "acme" := Sample.acme ]} : gmap _ _) !! k = Some b) in H.
  by apply lookup_singleton_Some in H as [<- <-].
Qed.

Lemma mutators_keep_keyed_witness :
  keyed (upsert Sample.later Sample.acme_renamed Sample.acme_store).2 ∧
  keyed (update_logo Sample.later "acme" "brands/acme_logo.svg" Sample.acme_store).2 ∧
  keyed (delete "acme" Sample.acme_store).2.
Proof.
  apply (mutators_keep_keyed Sample.later Sample.acme_renamed "acme"
           "brands/acme_logo.svg" Sample.acme_store).
  exact acme_store_keyed.
Defined.

(** X5: deleting a client_id right after creating it gives back the cache
    as it was before. *)
Theorem delete_undoes_create (now : datetime) (brand : BrandConfig.t) (st : BrandStorage) :
  get (BrandConfig.client_id brand) st = None ->
  (delete (BrandConfig.client_id brand) (upsert now brand st).2).1 = true ∧
  _cache (delete (BrandConfig.client_id brand) (upsert now brand st).2).2 = _cache st.
Proof.
  unfold get, delete, upsert. intros E. rewrite E. simpl.
  rewrite lookup_insert_eq. simpl. split; [reflexivity|].
  by apply delete_insert_id.
Qed.

Lemma delete_undoes_create_witness :
  (delete "acme" (upsert Sample.noon Sample.acme_renamed Sample.empty_store).2).1 = true ∧
  _cache (delete "acme" (upsert Sample.noon Sample.acme_renamed Sample.empty_store).2).2
  = _cache Sample.empty_store.
Proof.
  apply (delete_undoes_create Sample.noon Sample.acme_renamed Sample.empty_store).
  reflexivity.
Defined.

(** X6: repeating an [upsert] at the same clock reading changes nothing:
    the same record is returned and the store is the same. *)
Theorem upsert_idempotent (now : datetime) (brand : BrandConfig.t) (st : BrandStorage) :
  upsert now brand (upsert now brand st).2 = upsert now brand st.
Proof.
  unfold upsert. simpl.
  destruct (_cache st !! BrandConfig.client_id brand) as [old|]; simpl;
    rewrite lookup_insert_eq; simpl; unfold _save, set_cache; simpl;
    by rewrite insert_insert_eq.
Qed.

(** X7: [get_all] lists exactly the records of the store, one entry for
    each client_id. *)
Theorem get_all_spec (st : BrandStorage) :
  length (get_all st) = size (_cache st) ∧
  ∀ b, b ∈ get_all st ↔ ∃ k, get k st = Some b.
Proof.
  unfold get_all, get. split.
  - by rewrite length_fmap, length_map_to_list.
  - intros b. rewrite list_elem_of_fmap. split.
    + intros ([k b'] & -> & Hin). exists k. by apply elem_of_map_to_list.
    + intros (k & Hk). exists (k, b). split; [reflexivity|].
      by apply elem_of_map_to_list.
Qed.

End StorageLaws.

(* ===================================================================== *)
(** * Loading, and what survives a restart *)
(* ===================================================================== *)

Module LoadLaws.
Import Storage StoreInvariants.

(** A cache of valid records is what [_load] makes of its document. *)
Lemma load_dump (cache : gmap string BrandConfig.t) :
  (∀ k b, cache !! k = Some b -> BrandConfig.wf b = true) ->
  _load (Document (dump cache)) = cache.
Proof.
  intros Hwf. unfold _load, dump.
  rewrite PersistenceFacts.dict_of_items_to_list.
  set (items := map_to_list (BrandConfig.model_dump_json <$> cache)).
  destruct (PersistenceFacts.load_items_total items) as [l Hl].
  { intros k v Hin. apply PersistenceFacts.dump_items_elem in Hin as (b & Hb & ->).
    rewrite PersistenceFacts.validate_model_dump; [by eexists|]. by apply (Hwf k). }
  rewrite Hl. apply map_eq. intros k. apply option_eq. intros b.
  rewrite PersistenceFacts.dict_of_items_lookup.
  - rewrite (PersistenceFacts.load_items_elem items l Hl). split.
    + intros (v & Hin & Hv).
      apply PersistenceFacts.dump_items_elem in Hin as (b' & Hb' & ->).
      rewrite PersistenceFacts.validate_model_dump in Hv by (by apply (Hwf k)).
      congruence.
    + intros Hb. exists (BrandConfig.model_dump_json b). split.
      * apply PersistenceFacts.dump_items_elem. by exists b.
      * apply PersistenceFacts.validate_model_dump. by apply (Hwf k).
  - rewrite (PersistenceFacts.load_items_keys items l Hl). apply NoDup_fst_map_to_list.
Qed.

Lemma upsert_valid now brand st :
  valid_records st ->
  datetime_valid now = true ->
  BrandConfig.opt_valid BrandConfig.http_scheme (BrandConfig.website_url brand) = true ->
  valid_records (upsert now brand st).2.
Proof.
  intros Hv Hnow Hurl k b. unfold valid_records, get in *. unfold upsert. simpl.
  destruct (_cache st !! BrandConfig.client_id brand) as [old|] eqn:E; simpl;
    (destruct (decide (k = BrandConfig.client_id brand)) as [->|Hne];
     [ rewrite lookup_insert_eq; intros [= <-]
     | rewrite lookup_insert_ne by done; apply Hv ]).
  - specialize (Hv _ _ E). unfold BrandConfig.wf in *. simpl.
    rewrite !andb_true_iff in *. by destruct Hv as [[_ Hc] _].
  - unfold BrandConfig.wf. simpl. by rewrite Hurl, Hnow.
Qed.

Lemma update_logo_valid now client_id logo_path st :
  valid_records st ->
  datetime_valid now = true ->
  valid_records (update_logo now client_id logo_path st).2.
Proof.
  intros Hv Hnow k b. unfold valid_records, get in *. unfold update_logo.
  destruct (_cache st !! client_id) as [old|] eqn:E; simpl; [|apply Hv].
  destruct (decide (k = client_id)) as [->|Hne].
  - rewrite lookup_insert_eq. intros [= <-].
    specialize (Hv _ _ E). unfold BrandConfig.wf in *. simpl.
    rewrite !andb_true_iff in *. by destruct Hv as [[Hu Hc] _].
  - rewrite lookup_insert_ne by done. apply Hv.
Qed.

Lemma delete_valid client_id st :
  valid_records st -> valid_records (delete client_id st).2.
Proof.
  intros Hv k b. unfold valid_records, get in *. unfold delete.
  destruct (_cache st !! client_id); simpl; [|apply Hv].
  intros Hl. apply lookup_delete_Some in Hl as [_ Hl]. by apply (Hv k).
Qed.

Lemma acme_store_valid : valid_records Sample.acme_store.
Proof.
  intros k b H. change (({[ "acme" := Sample.acme ]} : gmap _ _) !! k = Some b) in H.
  by apply lookup_singleton_Some in H as [_ <-].
Qed.

(** X8: a store of valid records stays one under [upsert] (of a config
    with a valid URL), [update_logo] and [delete], when the clock reading is
    a valid timestamp. *)
Theorem mutators_keep_valid (now : datetime) (brand : BrandConfig.t)
  (client_id logo_path : string) (st : BrandStorage) :
  valid_records st ->
  datetime_valid now = true ->
  BrandConfig.opt_valid BrandConfig.http_scheme (BrandConfig.website_url brand) = true ->
  valid_records (upsert now brand st).2 ∧
  valid_records (update_logo now client_id logo_path st).2 ∧
  valid_records (delete client_id st).2.
Proof.
  intros Hv Hnow Hurl. split; [|split].
  - by apply upsert_valid.
  - by apply update_logo_valid.
  - by apply delete_valid.
Qed.

Lemma mutators_keep_valid_witness :
  valid_records (upsert Sample.later Sample.acme_renamed Sample.acme_store).2 ∧
  valid_records (update_logo Sample.later "acme" "brands/acme_logo.svg" Sample.acme_store).2 ∧
  valid_records (delete "acme" Sample.acme_store).2.
Proof.
  apply (mutators_keep_valid Sample.later Sample.acme_renamed "acme"
           "brands/acme_logo.svg" Sample.acme_store).
  - exact acme_store_valid.
  - reflexivity.
  - reflexivity.
Defined.

(** X9: what [upsert] stored is there after a restart: a fresh instance
    over the file left by the upsert holds the same records, the upserted
    one under its client_id. *)
Theorem upsert_survives_restart (now : datetime) (brand : BrandConfig.t)
  (st : BrandStorage) :
  valid_records st ->
  datetime_valid now = true ->
  BrandConfig.opt_valid BrandConfig.http_scheme (BrandConfig.website_url brand) = true ->
  _cache (init (storage_file (upsert now brand st).2)) = _cache (upsert now brand st).2 ∧
  get (BrandConfig.client_id brand) (init (storage_file (upsert now brand st).2))
  = Some (upsert now brand st).1.
Proof.
  intros Hv Hnow Hurl.
  pose proof (upsert_valid now brand st Hv Hnow Hurl) as Hv'.
  assert (Heq : _cache (init (storage_file (upsert now brand st).2))
                = _cache (upsert now brand st).2).
  { unfold init. simpl. apply load_dump. exact Hv'. }
  split; [exact Heq|]. unfold get. rewrite Heq.
  unfold upsert. simpl.
  destruct (_cache st !! BrandConfig.client_id brand); simpl; apply lookup_insert_eq.
Qed.

Lemma upsert_survives_restart_witness :
  _cache (init (storage_file (upsert Sample.later Sample.acme_renamed Sample.acme_store).2))
  = _cache (upsert Sample.later Sample.acme_renamed Sample.acme_store).2 ∧
  get "acme" (init (storage_file (upsert Sample.later Sample.acme_renamed Sample.acme_store).2))
  = Some (upsert Sample.later Sample.acme_renamed Sample.acme_store).1.
Proof.
  apply (upsert_survives_restart Sample.later Sample.acme_renamed Sample.acme_store).
  - exact acme_store_valid.
  - reflexivity.
  - reflexivity.
Defined.

(** X10: a deleted client stays deleted after a restart, and the others
    are all still there. *)
Theorem delete_survives_restart (client_id : string) (st : BrandStorage) :
  valid_records st ->
  is_Some (get client_id st) ->
  get client_id (init (storage_file (delete client_id st).2)) = None ∧
  ∀ k, k ≠ client_id ->
       get k (init (storage_file (delete client_id st).2)) = get k st.
Proof.
  intros Hv [old Hold].
  pose proof (delete_valid client_id st Hv) as Hv'.
  assert (Heq : _cache (init (storage_file (delete client_id st).2))
                = base.delete client_id (_cache st)).
  { revert Hv'. unfold init, delete. unfold get in Hold. rewrite Hold. simpl.
    intros Hv'. apply load_dump. exact Hv'. }
  unfold get. rewrite Heq.
  split; [apply lookup_delete_eq|]. intros k Hk. by apply lookup_delete_ne.
Qed.

Lemma delete_survives_restart_witness :
  get "acme" (init (storage_file (delete "acme" Sample.acme_store).2)) = None ∧
  ∀ k, k ≠ "acme" ->
       get k (init (storage_file (delete "acme" Sample.acme_store).2))
       = get k Sample.acme_store.
Proof.
  apply (delete_survives_restart "acme" Sample.acme_store).
  - exact acme_store_valid.
  - by eexists.
Defined.

End LoadLaws.

(* ===================================================================== *)
(** * The renderer: derived names and effects *)
(* ===================================================================== *)

Module RendererLaws.
Import Renderer.

Lemma str_length_app (a b : string) :
  String.length (a +:+ b) = (String.length a + String.length b)%nat.
Proof. induction a as [|c a IH]; simpl; [reflexivity|]. by rewrite IH. Qed.

Lemma is_prefix_app (old rest : string) : is_prefix old (old +:+ rest) = true.
Proof.
  induction old as [|c old IH]; [reflexivity|].
  simpl. by rewrite decide_True.
Qed.

Lemma is_prefix_split (old : string) :
  ∀ s, is_prefix old s = true -> ∃ rest, s = old +:+ rest.
Proof.
  induction old as [|c old IH]; intros s H.
  - by exists s.
  - destruct s as [|c' s]; [discriminate|]. simpl in H.
    case_decide; [subst c'|discriminate].
    destruct (IH s H) as [rest ->]. by exists rest.
Qed.

Lemma is_prefix_extend (old : string) :
  ∀ s t, is_prefix old s = true -> is_prefix old (s +:+ t) = true.
Proof.
  induction old as [|c old IH]; intros s t H; [reflexivity|].
  destruct s as [|c' s]; [discriminate|]. simpl in *.
  case_decide; [|discriminate]. by apply IH.
Qed.

(** The first occurrence of a non-empty text splits the string around it. *)
Lemma first_occurrence (old : string) :
  old ≠ "" ->
  ∀ s, contains old s = true ->
       ∃ stem rest, s = stem +:+ old +:+ rest ∧ contains old stem = false.
Proof.
  intros Hold.
  assert (Hnil : contains old "" = false).
  { destruct old; [done|reflexivity]. }
  induction s as [|c r IH]; intros H.
  - congruence.
  - destruct (is_prefix old (String c r)) eqn:Ep.
    + destruct (is_prefix_split _ _ Ep) as [rest Hrest].
      exists "", rest. by split.
    + assert (Hr : contains old r = true).
      { change (contains old (String c r))
          with (is_prefix old (String c r) || contains old r) in H.
        by rewrite Ep in H. }
      destruct (IH Hr) as (stem & rest & -> & Hstem).
      exists (String c stem), rest. split; [reflexivity|].
      change (contains old (String c stem))
        with (is_prefix old (String c stem) || contains old stem).
      rewrite Hstem. destruct (is_prefix old (String c stem)) eqn:E; [|reflexivity].
      apply (is_prefix_extend _ _ (old +:+ rest)) in E.
      change (String c stem +:+ old +:+ rest)
        with (String c (stem +:+ old +:+ rest)) in E.
      congruence.
Qed.

Lemma replace_go_skip (old new p rest : string) :
  replace_go old new (String.length p) (p +:+ rest) = replace_go old new 0 rest.
Proof. induction p as [|c p IH]; [reflexivity|]. exact IH. Qed.

Lemma replace_go_at (old new rest : string) :
  old ≠ "" ->
  replace_go old new 0 (old +:+ rest) = new +:+ replace_go old new 0 rest.
Proof.
  destruct old as [|c old]; [done|]. intros _.
  change (String c old +:+ rest) with (String c (old +:+ rest)).
  cbn [replace_go].
  change (String c (old +:+ rest)) with (String c old +:+ rest).
  rewrite is_prefix_app.
  replace (String.length (String c old) - 1)%nat with (String.length old)
    by (simpl; lia).
  by rewrite replace_go_skip.
Qed.

Lemma docx_occurrence_before (s rest : string) :
  is_prefix ".docx" (s +:+ ".docx" +:+ rest) = true ->
  s = "" ∨ is_prefix ".docx" s = true.
Proof.
  destruct s as [|c1 [|c2 [|c3 [|c4 [|c5 r]]]]]; [by left|..]; intros H; right;
    simpl in H |- *;
    repeat (case_decide; [subst|discriminate H]); try discriminate H; reflexivity.
Qed.

Lemma default_output_name_split (stem rest : string) :
  contains ".docx" stem = false ->
  default_output_name (stem +:+ ".docx" +:+ rest)
  = stem +:+ "_rendered.docx" +:+ default_output_name rest.
Proof.
  unfold default_output_name, str_replace.
  induction stem as [|c r IH]; intros H.
  - apply (replace_go_at ".docx" "_rendered.docx" rest). discriminate.
  - apply RendererFacts.contains_cons in H as [Hp Hc].
    change (String c r +:+ ".docx" +:+ rest) with (String c (r +:+ ".docx" +:+ rest)).
    cbn [replace_go].
    destruct (is_prefix ".docx" (String c (r +:+ ".docx" +:+ rest))) eqn:E.
    + apply (docx_occurrence_before (String c r)) in E as [E|E]; congruence.
    + change (String c r +:+ "_rendered.docx" +:+ replace_go ".docx" "_rendered.docx" 0 rest)
        with (String c (r +:+ "_rendered.docx" +:+ replace_go ".docx" "_rendered.docx" 0 rest)).
      f_equal. by apply IH.
Qed.

(** X13: the derived name is built occurrence by occurrence: up to and
    including the first [".docx"] the name becomes the text before it
    followed by ["_rendered.docx"], and what follows is treated the same
    way. *)
Theorem default_output_name_first (stem rest : string) :
  contains ".docx" stem = false ->
  default_output_name (stem +:+ ".docx" +:+ rest)
  = stem +:+ "_rendered.docx" +:+ default_output_name rest.
Proof. apply default_output_name_split. Qed.

Lemma default_output_name_first_witness :
  default_output_name ("archive" +:+ ".docx" +:+ ".docx")
  = "archive" +:+ "_rendered.docx" +:+ default_output_name ".docx".
Proof.
  apply (default_output_name_first "archive" ".docx"). reflexivity.
Defined.

Lemma default_output_name_grows (n : nat) :
  ∀ s, String.length s <= n ->
       String.length s <= String.length (default_output_name s) ∧
       (contains ".docx" s = true ->
        String.length s < String.length (default_output_name s)).
Proof.
  induction n as [|n IH]; intros s Hn.
  - destruct s; [|simpl in Hn; lia]. split; [reflexivity|]. discriminate.
  - destruct (contains ".docx" s) eqn:Ec.
    + destruct (first_occurrence ".docx" ltac:(discriminate) s Ec)
        as (stem & rest & -> & Hstem).
      rewrite default_output_name_split by exact Hstem.
      rewrite !str_length_app in *. simpl String.length in *.
      destruct (IH rest ltac:(lia)) as [Hle _]. lia.
    + unfold default_output_name.
      rewrite (RendererFacts.str_replace_absent ".docx" "_rendered.docx" s Ec).
      split; [reflexivity|discriminate].
Qed.

(** X14: the derived name differs from the template name exactly when the
    template name contains [".docx"]; it is never shorter. *)
Theorem default_output_name_fixed (template_name : string) :
  (default_output_name template_name = template_name
   ↔ contains ".docx" template_name = false) ∧
  String.length template_name <= String.length (default_output_name template_name).
Proof.
  destruct (default_output_name_grows (String.length template_name) template_name
              (le_n _)) as [Hle Hlt].
  split; [|exact Hle]. split.
  - intros Heq. destruct (contains ".docx" template_name); [|reflexivity].
    specialize (Hlt eq_refl). rewrite Heq in Hlt. lia.
  - apply RendererFacts.str_replace_absent.
Qed.

End RendererLaws.

(* ===================================================================== *)
(** * Report generation: the other outcomes *)
(* ===================================================================== *)

Module ApiLaws.
Import Api.

(** [generate_report] for a known client, seen through its renderer call. *)
Lemma generate_report_known h storage request w brand :
  Storage.get (ReportRequest.client_id request) storage = Some brand ->
  generate_report h storage request w =
  match Renderer.render_docx h (ReportRequest.template_name request)
          (build_context (datetime_now h) brand request)
          (Some (output_name_for (datetime_now h) request)) w with
  | (Raise e, w1) =>
      (Raise (HTTPException 500 ("Failed to render report: " +:+ exn_str e)), w1)
  | (Ok docx_path, w1) =>
      let respond pdf_path :=
        {| ReportResponse.client_id := ReportRequest.client_id request;
           ReportResponse.docx_path := docx_path;
           ReportResponse.pdf_path := pdf_path;
           ReportResponse.generated_at := datetime_utcnow h;
           ReportResponse.template_used := ReportRequest.template_name request |} in
      if ReportRequest.generate_pdf request then
        match Pdf.docx_to_pdf h docx_path None w1 with
        | (Raise (PdfConversionError m), w2) =>
            (Raise (HTTPException 500 ("PDF conversion failed: " +:+ m)), w2)
        | (Raise e, w2) => (Raise e, w2)
        | (Ok pdf_path, w2) => (Ok (respond (Some pdf_path)), w2)
        end
      else (Ok (respond None), w1)
  end.
Proof. intros Hget. unfold generate_report. by rewrite Hget. Qed.

(** The renderer call of [generate_report], seen through the engine. *)
Lemma render_call h template_name context name w :
  Renderer.render_docx h template_name context (Some name) w =
  let template_path := path_join (Renderer.TEMPLATE_DIR h) template_name in
  let output_path := path_join (Renderer.OUTPUT_DIR h) name in
  let engine := docxtpl h template_path context output_path (files w) in
  (match engine.1 with Some e => Raise e | None => Ok output_path end,
   {| files := engine.2;
      dirs := {[ Renderer.OUTPUT_DIR h ]} ∪ dirs w;
      trace := (trace w ++ [DocxTemplateCall template_path output_path])%list |}).
Proof.
  unfold Renderer.render_docx, Host.bind, mkdir, log. simpl.
  by destruct (docxtpl h _ _ _ _) as [[e|] fs].
Qed.



(** X24: when the document is rendered and the conversion then finds no
    backend, the answer is status 500 with the converter's message, and the
    files the template engine wrote are still there. *)
Theorem generate_report_keeps_document (h : Host) (storage : Storage.BrandStorage)
  (request : ReportRequest.t) (w : World) (brand : BrandConfig.t) :
  let engine :=
    docxtpl h (path_join (Renderer.TEMPLATE_DIR h) (ReportRequest.template_name request))
      (build_context (datetime_now h) brand request)
      (path_join (Renderer.OUTPUT_DIR h) (output_name_for (datetime_now h) request))
      (files w) in
  Storage.get (ReportRequest.client_id request) storage = Some brand ->
  engine.1 = None ->
  ReportRequest.generate_pdf request = true ->
  truthy (which h "soffice") = false ->
  Pdf.native_platform h = false ->
  (generate_report h storage request w).1
  = Raise (HTTPException 500 ("PDF conversion failed: " +:+ Pdf.no_backend_message)) ∧
  files (generate_report h storage request w).2 = engine.2.
Proof.
  intros engine Hget Hok Hpdf Hw Hn. subst engine.
  rewrite (generate_report_known _ _ _ _ _ Hget), render_call. simpl.
  destruct (docxtpl h _ _ _ _) as [err fs]. simpl in *. subst err.
  rewrite Hpdf. unfold Pdf.docx_to_pdf, Host.bind. simpl. by rewrite Hw, Hn.
Qed.

Lemma generate_report_keeps_document_witness :
  (generate_report Sample.bare_linux Sample.acme_store Fixtures.pdf_request Sample.disk).1
  = Raise (HTTPException 500 ("PDF conversion failed: " +:+ Pdf.no_backend_message)) ∧
  files (generate_report Sample.bare_linux Sample.acme_store Fixtures.pdf_request
           Sample.disk).2
  = (docxtpl Sample.bare_linux
       (path_join (Renderer.TEMPLATE_DIR Sample.bare_linux)
          (ReportRequest.template_name Fixtures.pdf_request))
       (build_context (datetime_now Sample.bare_linux) Sample.acme Fixtures.pdf_request)
       (path_join (Renderer.OUTPUT_DIR Sample.bare_linux)
          (output_name_for (datetime_now Sample.bare_linux) Fixtures.pdf_request))
       (files Sample.disk)).2.
Proof.
  apply (generate_report_keeps_document Sample.bare_linux Sample.acme_store
           Fixtures.pdf_request Sample.disk Sample.acme); reflexivity.
Defined.

End ApiLaws.

(* ===================================================================== *)
(** * The report context: its keys *)
(* ===================================================================== *)

Module ContextLaws.
Import Api.

Lemma strftime_not_empty (now : datetime) : strftime_B_d_Y now ≠ "".
Proof.
  unfold strftime_B_d_Y. destruct (month_name (month now)); discriminate.
Qed.

(** X27: the keys of the built context are the ten keys of the literal
    together with the keys of [extra_context]; a template finds each of the
    ten whatever the request leaves out. *)
Theorem context_keys (now : datetime) (brand : BrandConfig.t) (request : ReportRequest.t) :
  dom (build_context now brand request)
  = list_to_set [ "client_name"; "report_date"; "report_period"; "prepared_by";
                  "executive_summary"; "metrics"; "highlights"; "recommendations";
                  "contact"; "brand" ]
    ∪ dom (ReportRequest.extra_context request).
Proof.
  unfold build_context, dict_merge, computed_context, computed_items, dict_of_items.
  cbn [fold_left fst snd list_to_set foldr].
  rewrite dom_union_L, !dom_insert_L, dom_empty_L.
  apply set_eq. intros x.
  rewrite !elem_of_union, !elem_of_singleton, elem_of_empty. tauto.
Qed.

(** X28: unless [extra_context] names it, [report_date] in the context is
    a text that is not empty. *)
Theorem report_date_not_empty (now : datetime) (brand : BrandConfig.t)
  (request : ReportRequest.t) :
  ReportRequest.extra_context request !! "report_date" = None ->
  ∃ s, build_context now brand request !! "report_date" = Some (JStr s) ∧ s ≠ "".
Proof.
  intros Hx. unfold build_context.
  rewrite ContextFacts.dict_merge_lookup, Hx, ContextFacts.computed_context_lookup.
  simpl. eexists. split; [reflexivity|].
  unfold str_or. destruct (ReportRequest.report_date request) as [s|].
  - case_decide; [apply strftime_not_empty|done].
  - apply strftime_not_empty.
Qed.

Lemma report_date_not_empty_witness :
  ∃ s, build_context Sample.noon Sample.acme (Sample.request "acme" (Some "") ∅)
         !! "report_date" = Some (JStr s) ∧ s ≠ "".
Proof.
  apply (report_date_not_empty Sample.noon Sample.acme (Sample.request "acme" (Some "") ∅)).
  reflexivity.
Defined.

End ContextLaws.

(* ===================================================================== *)
(** * The client endpoints *)
(* ===================================================================== *)

Module EndpointLaws.
Import Storage Endpoints.

(** X29: a client that was posted can be fetched, as the record the post
    answered with; once deleted it cannot be fetched, and deleting it again
    is a 404 that leaves the store alone. *)
Theorem client_lifecycle (h : Host) (brand : BrandConfig.t) (st : BrandStorage) :
  let client_id := BrandConfig.client_id brand in
  let saved := (upsert_client h brand st).1 in
  let st1 := (upsert_client h brand st).2 in
  let st2 := (delete_client client_id st1).2 in
  get_client client_id st1 = Ok saved ∧
  (delete_client client_id st1).1
  = Ok (JDict [ ("message", JStr "Client deleted"); ("client_id", JStr client_id) ]) ∧
  get_client client_id st2 = Raise (HTTPException 404 "Client not found") ∧
  delete_client client_id st2 = (Raise (HTTPException 404 "Client not found"), st2).
Proof.
  unfold upsert_client, get_client, delete_client, delete, upsert, get. simpl.
  destruct (_cache st !! BrandConfig.client_id brand); simpl;
    rewrite !lookup_insert_eq; simpl; rewrite !lookup_delete_eq; done.
Qed.

End EndpointLaws.
(* ===================================================================== *)
(** * The renderer on a platform that may refuse *)
(* ===================================================================== *)

Module RenderOnPlatform.
Import Renderer OnPlatform.

(** When the output directory cannot be created the engine is not
    reached. *)
Lemma render_docx_no_output_dir (p : Platform.t) template_name context output_name w e w1 :
  Platform.mkdir_parents p (OUTPUT_DIR p) w = (Raise e, w1) ->
  render_docx p template_name context output_name w = (Raise e, Platform.after w w1).
Proof.
  intros H. unfold render_docx, Host.bind, make_dir. by rewrite H.
Qed.

(** Where the output directory is there or can be made, the outcome is
    the engine's. *)
Lemma render_docx_engine (p : Platform.t) template_name context output_name w w1 :
  Platform.mkdir_parents p (OUTPUT_DIR p) w = (Ok tt, w1) ->
  let template_path := Platform.joinpath p (TEMPLATE_DIR p) template_name in
  let output_path :=
    Platform.joinpath p (OUTPUT_DIR p)
      (default (default_output_name template_name) output_name) in
  let r := Platform.docxtpl p template_path context output_path (Platform.after w w1) in
  render_docx p template_name context output_name w
  = (match r.1 with Some e => Raise e | None => Ok output_path end,
     Platform.outside (DocxTemplateCall template_path output_path)
       (Platform.after w w1) r.2).
Proof.
  intros H. unfold render_docx, Host.bind, make_dir. rewrite H.
  destruct output_name as [n|]; simpl;
    destruct (Platform.docxtpl p _ _ _ _) as [[e|] w2]; reflexivity.
Qed.

(** C3 (as stated) fails: an absent template file is not always answered
    with an error of the not-found class.  On a POSIX machine whose engine opens the template,
    the name ["quarterly.docx/cover.docx"] names no file (there is nothing at
    that path: [quarterly.docx] is a file, not a directory), and rendering it
    fails with [NotADirectoryError]. *)
Lemma render_docx_absent_other_class :
  Platform.path_exists Lab.server
    (Platform.joinpath Lab.server (TEMPLATE_DIR Lab.server) "quarterly.docx/cover.docx")
    Lab.site = false ∧
  ∃ e, (render_docx Lab.server "quarterly.docx/cover.docx" ∅ None Lab.site).1 = Raise e
       ∧ Platform.exn_class e = "NotADirectoryError"
       ∧ not_found_class e = false.
Proof.
  split; [by vm_compute|].
  exists Posix.NotADirectoryError. by vm_compute.
Qed.

(** The same for the empty name, which names the template directory
    itself, for a name with a NUL in it, and, whatever the engine, for an
    output directory that cannot be created. *)
Lemma render_docx_other_refusals :
  (∃ e, (render_docx Lab.server "" ∅ None Lab.site).1 = Raise e
        ∧ Platform.exn_class e = "IsADirectoryError") ∧
  (∃ e, (render_docx Lab.server (String Posix.NUL "") ∅ None Lab.site).1 = Raise e
        ∧ Platform.exn_class e = "ValueError") ∧
  (∃ e, (render_docx Lab.server "missing.docx" ∅ None Lab.blocked).1 = Raise e
        ∧ Platform.exn_class e = "FileExistsError"
        ∧ trace (render_docx Lab.server "missing.docx" ∅ None Lab.blocked).2 = []).
Proof.
  split; [|split].
  - exists Posix.IsADirectoryError. by vm_compute.
  - exists Posix.ValueError. by vm_compute.
  - exists Posix.FileExistsError. by vm_compute.
Qed.

Lemma posix_engine_opens cwd base platform soffice run convert :
  Platform.engine_opens_template (Posix.machine cwd base platform soffice run convert).
Proof.
  intros tp ctx op w e H. simpl in *. unfold Posix.engine. by rewrite H.
Qed.

(** On POSIX, opening a path that holds no NUL and at which nothing is
    found, below directories that exist, raises [FileNotFoundError]. *)
Lemma posix_open_read_missing cwd s w :
  Posix.has_nul s = false ->
  (Posix.locate cwd (Posix.Path s) w = inl Posix.ENOENT
   ∨ ∃ l, Posix.locate cwd (Posix.Path s) w = inr (l, Posix.NNone)) ->
  Posix.open_read cwd s w = Some (FileNotFoundError "").
Proof.
  intros Hn H. unfold Posix.open_read. rewrite Hn.
  destruct H as [->|[l ->]]; reflexivity.
Qed.

(** C3 (as amended): [render_docx] makes no check of its own.  Once
    the output directory is there, and with an engine that opens the
    template file, rendering fails with the very error that opening
    [TEMPLATE_DIR / template_name] reports, after one call of the engine:
    an error of the not-found class exactly when that is what opening the
    path reports. *)
Theorem render_docx_unreadable_template (p : Platform.t) (template_name : string)
  (context : gmap string json) (output_name : option string) (w w1 : World) (e : exn) :
  Platform.engine_opens_template p ->
  Platform.mkdir_parents p (OUTPUT_DIR p) w = (Ok tt, w1) ->
  Platform.open_read p (Platform.joinpath p (TEMPLATE_DIR p) template_name)
    (Platform.after w w1) = Some e ->
  (render_docx p template_name context output_name w).1 = Raise e ∧
  trace (render_docx p template_name context output_name w).2
  = (trace w ++ [DocxTemplateCall
                   (Platform.joinpath p (TEMPLATE_DIR p) template_name)
                   (Platform.joinpath p (OUTPUT_DIR p)
                      (default (default_output_name template_name) output_name))])%list.
Proof.
  intros Heng Hmk Hopen.
  rewrite (render_docx_engine p template_name context output_name w w1 Hmk).
  cbv zeta. cbn [fst snd]. rewrite (Heng _ context _ _ e Hopen). done.
Qed.

Lemma render_docx_unreadable_template_witness :
  ∃ e, not_found_class e = true ∧
       (render_docx Lab.server "missing.docx" ∅ None Lab.site).1 = Raise e ∧
       trace (render_docx Lab.server "missing.docx" ∅ None Lab.site).2
       = [DocxTemplateCall "/srv/app/reports/templates/missing.docx"
            "/srv/app/reports/output/missing_rendered.docx"].
Proof.
  exists (FileNotFoundError ""). split; [reflexivity|].
  apply (render_docx_unreadable_template Lab.server "missing.docx" ∅ None Lab.site
           (Posix.add_dir "/srv/app/reports/output" Lab.site) (FileNotFoundError "")).
  - apply posix_engine_opens.
  - by vm_compute.
  - by vm_compute.
Defined.

(** X15: a call of [render_docx] reaches the template engine at most once.
    If the output directory cannot be created the error of [mkdir] is raised
    and the engine is not called; otherwise the engine is called once, on
    [TEMPLATE_DIR / template_name] and [OUTPUT_DIR / name], its error is
    raised unchanged, and without an error the path returned is
    [OUTPUT_DIR / name]. *)
Theorem render_docx_effects (p : Platform.t) (template_name : string)
  (context : gmap string json) (output_name : option string) (w : World) :
  let template_path := Platform.joinpath p (TEMPLATE_DIR p) template_name in
  let output_path :=
    Platform.joinpath p (OUTPUT_DIR p)
      (default (default_output_name template_name) output_name) in
  let r := render_docx p template_name context output_name w in
  match Platform.mkdir_parents p (OUTPUT_DIR p) w with
  | (Raise e, _) => r.1 = Raise e ∧ trace r.2 = trace w
  | (Ok _, w1) =>
      trace r.2 = (trace w ++ [DocxTemplateCall template_path output_path])%list ∧
      r.1 = match (Platform.docxtpl p template_path context output_path
                     (Platform.after w w1)).1 with
            | Some e => Raise e
            | None => Ok output_path
            end
  end.
Proof.
  cbv zeta.
  destruct (Platform.mkdir_parents p (OUTPUT_DIR p) w) as [[[]|e] w1] eqn:E.
  - rewrite (render_docx_engine p template_name context output_name w w1 E). done.
  - rewrite (render_docx_no_output_dir p template_name context output_name w e w1 E). done.
Qed.

End RenderOnPlatform.

(* ===================================================================== *)
(** * The converter on a platform that may refuse *)
(* ===================================================================== *)

Module ConvertOnPlatform.
Import OnPlatform.

Lemma libreoffice_trace (p : Platform.t) docx_path output_dir w :
  trace (_convert_with_libreoffice p docx_path output_dir w).2
  = (trace w ++ [SubprocessRun ["soffice"; "--headless"; "--convert-to"; "pdf"; "--outdir";
                                output_dir; docx_path]])%list.
Proof.
  unfold _convert_with_libreoffice.
  destruct (Platform.subprocess_run p _ w) as [[[rc err]|e] w']; [|reflexivity].
  by case_decide.
Qed.

Lemma docx2pdf_trace (p : Platform.t) convert docx_path pdf_path w :
  Platform.docx2pdf p = Some convert ->
  trace (_convert_with_docx2pdf p docx_path pdf_path w).2
  = (trace w ++ [Docx2pdfConvert docx_path pdf_path])%list.
Proof.
  intros H. unfold _convert_with_docx2pdf. rewrite H.
  destruct (convert docx_path pdf_path w) as [[e|] w']; [reflexivity|].
  by destruct (Platform.path_exists p pdf_path _).
Qed.

(** What [prepare] returns, in the calls it is made of. *)
Lemma prepare_unfold (p : Platform.t) input_path output_path w :
  prepare p input_path output_path w
  = match Platform.resolve p input_path w with
    | Raise e => (Raise e, w)
    | Ok docx_path =>
        match match output_path with
              | None => Platform.with_suffix p docx_path ".pdf"
              | Some o => Platform.resolve p o w
              end with
        | Raise e => (Raise e, w)
        | Ok pdf_path =>
            match Platform.mkdir_parents p (Platform.parent p pdf_path) w with
            | (Raise e, w1) => (Raise e, Platform.after w w1)
            | (Ok _, w1) => (Ok (docx_path, pdf_path), Platform.after w w1)
            end
        end
    end.
Proof.
  unfold prepare, make_dir.
  destruct (Platform.resolve p input_path w) as [docx|e]; [|reflexivity].
  destruct (match output_path with
            | Some o => _
            | None => _
            end) as [pdf|e]; [|reflexivity].
  by destruct (Platform.mkdir_parents p (Platform.parent p pdf) w) as [[[]|e] w1].
Qed.

(** C8 (as stated) fails: the tool on the path is not always used.  On a POSIX machine that has
    [soffice], the request to convert ["/"] fails with [ValueError], which
    is no [PdfConversionError], before any backend is looked for: the path
    has no name to give a suffix to.  Nothing is run. *)
Lemma docx_to_pdf_tool_not_reached :
  truthy (Platform.which Lab.server "soffice") = true ∧
  ∃ e, docx_to_pdf Lab.server "/" None Lab.site = (Raise e, Lab.site)
       ∧ Platform.exn_class e = "ValueError"
       ∧ trace Lab.site = [].
Proof.
  split; [reflexivity|]. exists Posix.ValueError. by vm_compute.
Qed.

(** The same where the directory of the PDF cannot be made, a file being in
    the way; and without a backend such a request does not end in a
    [PdfConversionError] either. *)
Lemma docx_to_pdf_directory_refused :
  (∃ e, (docx_to_pdf Lab.server "/srv/app/reports/templates/quarterly.docx"
           (Some "/srv/app/reports/output/quarterly.pdf") Lab.blocked).1 = Raise e
        ∧ Platform.exn_class e = "FileExistsError"
        ∧ trace (docx_to_pdf Lab.server "/srv/app/reports/templates/quarterly.docx"
                   (Some "/srv/app/reports/output/quarterly.pdf") Lab.blocked).2 = []) ∧
  (∃ e, (docx_to_pdf Lab.bare "/" None Lab.site).1 = Raise e
        ∧ Platform.exn_class e = "ValueError").
Proof.
  split.
  - exists Posix.FileExistsError. by vm_compute.
  - exists Posix.ValueError. by vm_compute.
Qed.

(** C8 (as amended).  Ahead of any backend the input path is
    resolved, the path of the PDF is derived (the input with the suffix
    [.pdf], or the resolved output path) and its directory is made; an error
    of any of the three is the error of the call, and nothing is run.  From
    there on the priority is: [soffice], run once with the arguments
    [--headless --convert-to pdf --outdir DIR DOCX], whenever
    [shutil.which] finds it; otherwise, on [win32] and [darwin], docx2pdf,
    called once, or [PdfConversionError("docx2pdf not installed")] without a
    call when it cannot be imported; otherwise a [PdfConversionError] whose
    message begins [No PDF backend found], and nothing is run. *)
Theorem docx_to_pdf_backend_priority (p : Platform.t) (input_path : string)
  (output_path : option string) (w : World) :
  let r := docx_to_pdf p input_path output_path w in
  match Platform.resolve p input_path w with
  | Raise e => r = (Raise e, w)
  | Ok docx_path =>
      match match output_path with
            | None => Platform.with_suffix p docx_path ".pdf"
            | Some o => Platform.resolve p o w
            end with
      | Raise e => r = (Raise e, w)
      | Ok pdf_path =>
          match Platform.mkdir_parents p (Platform.parent p pdf_path) w with
          | (Raise e, w1) => r = (Raise e, Platform.after w w1)
          | (Ok _, w1) =>
              if truthy (Platform.which p "soffice") then
                trace r.2
                = (trace w ++ [SubprocessRun
                                 ["soffice"; "--headless"; "--convert-to"; "pdf"; "--outdir";
                                  Platform.parent p pdf_path; docx_path]])%list
              else if bool_decide (Platform.sys_platform p = "win32")
                      || bool_decide (Platform.sys_platform p = "darwin") then
                match Platform.docx2pdf p with
                | Some _ =>
                    trace r.2 = (trace w ++ [Docx2pdfConvert docx_path pdf_path])%list
                | None =>
                    r = (Raise (PdfConversionError "docx2pdf not installed"),
                         Platform.after w w1)
                end
              else
                r = (Raise (PdfConversionError
                              "No PDF backend found. Install LibreOffice (soffice on PATH) or docx2pdf."),
                     Platform.after w w1)
          end
      end
  end.
Proof.
  cbv zeta. unfold docx_to_pdf, Host.bind. rewrite prepare_unfold.
  destruct (Platform.resolve p input_path w) as [docx|e]; [|reflexivity].
  destruct (match output_path with
            | Some o => _
            | None => _
            end) as [pdf|e]; [|reflexivity].
  destruct (Platform.mkdir_parents p (Platform.parent p pdf) w) as [[[]|e] w1];
    [|reflexivity].
  cbn [fst snd].
  destruct (truthy (Platform.which p "soffice")).
  - by rewrite libreoffice_trace.
  - destruct (bool_decide (Platform.sys_platform p = "win32")
              || bool_decide (Platform.sys_platform p = "darwin")); [|reflexivity].
    destruct (Platform.docx2pdf p) as [convert|] eqn:E.
    + by rewrite (docx2pdf_trace p convert).
    + unfold _convert_with_docx2pdf. by rewrite E.
Qed.

(** X19: with docx2pdf as the backend (no [soffice]), a path that
    [docx_to_pdf] returns is the PDF path it derived from its arguments, and
    [exists()] holds of it when the call returns. *)
Theorem docx2pdf_returns_existing (p : Platform.t) (input_path : string)
  (output_path : option string) (w w' : World) (result : string) :
  truthy (Platform.which p "soffice") = false ->
  docx_to_pdf p input_path output_path w = (Ok result, w') ->
  Platform.path_exists p result w' = true ∧
  ∃ docx_path,
    Platform.resolve p input_path w = Ok docx_path ∧
    match output_path with
    | None => Platform.with_suffix p docx_path ".pdf"
    | Some o => Platform.resolve p o w
    end = Ok result.
Proof.
  intros Hw. unfold docx_to_pdf, Host.bind. rewrite prepare_unfold, Hw.
  destruct (Platform.resolve p input_path w) as [docx|e]; [|discriminate].
  destruct (match output_path with
            | Some o => _
            | None => _
            end) as [pdf|e] eqn:Epdf; [|discriminate].
  destruct (Platform.mkdir_parents p (Platform.parent p pdf) w) as [[[]|e] w1];
    [|discriminate].
  cbn [fst snd].
  destruct (bool_decide (Platform.sys_platform p = "win32")
            || bool_decide (Platform.sys_platform p = "darwin")); [|discriminate].
  unfold _convert_with_docx2pdf.
  destruct (Platform.docx2pdf p) as [convert|]; [|discriminate].
  destruct (convert docx pdf _) as [[e|] w2]; [discriminate|].
  destruct (Platform.path_exists p pdf _) eqn:Ex; [|discriminate].
  intros [= <- <-]. split; [exact Ex|]. by exists docx.
Qed.

Lemma docx2pdf_returns_existing_witness :
  Platform.path_exists Lab.mac "/srv/app/reports/templates/quarterly.pdf"
    (docx_to_pdf Lab.mac "reports/templates/./quarterly.docx" None Lab.site).2 = true ∧
  ∃ docx_path,
    Platform.resolve Lab.mac "reports/templates/./quarterly.docx" Lab.site = Ok docx_path ∧
    Platform.with_suffix Lab.mac docx_path ".pdf"
    = Ok "/srv/app/reports/templates/quarterly.pdf".
Proof.
  apply (docx2pdf_returns_existing Lab.mac "reports/templates/./quarterly.docx" None
           Lab.site).
  - reflexivity.
  - by vm_compute.
Defined.

End ConvertOnPlatform.

(* ===================================================================== *)
(** * The derived output name, where the extension occurs twice *)
(* ===================================================================== *)

Module DerivedName.
Import Renderer.

(** C9: the derived name of ["report.docx"] is ["report_rendered.docx"],
    but the substitution is not held to the extension: in
    ["archive.docx.docx"] the inner [".docx"] is rewritten as well, where
    replacing the extension marker alone would leave
    ["archive.docx_rendered.docx"]. *)
Theorem default_output_name_inner_extension :
  default_output_name "report.docx" = "report_rendered.docx" ∧
  default_output_name "archive.docx.docx" = "archive_rendered.docx_rendered.docx" ∧
  claimed_output_name "archive.docx.docx" = "archive.docx_rendered.docx".
Proof. repeat split; reflexivity. Qed.

End DerivedName.

(* ===================================================================== *)
(** * Loading, whatever the record constructor accepts *)
(* ===================================================================== *)

Module LoaderLaws.
Import Storage.

Section WithConstructor.
Context {R : Type}.
Variable construct : json -> option R.

Lemma loader_items_refused items k v :
  (k, v) ∈ items -> construct v = None -> Loader.load_items construct items = None.
Proof.
  induction items as [|[k0 v0] items IH]; intros Hin Hv.
  - by apply elem_of_nil in Hin.
  - simpl. apply elem_of_cons in Hin as [[= <- <-]|Hin].
    + by rewrite Hv.
    + rewrite (IH Hin Hv). by destruct (construct v0).
Qed.

Lemma loader_items_elem items :
  ∀ l, Loader.load_items construct items = Some l ->
       ∀ k b, (k, b) ∈ l ↔ ∃ v, (k, v) ∈ items ∧ construct v = Some b.
Proof.
  induction items as [|[k0 v0] items IH]; intros l Hl k b.
  - simpl in Hl. injection Hl as <-. split.
    + intros H. by apply elem_of_nil in H.
    + intros (v & H & _). by apply elem_of_nil in H.
  - simpl in Hl.
    destruct (construct v0) as [b0|] eqn:Ev; [|discriminate].
    destruct (Loader.load_items construct items) as [bs|] eqn:Eb; [|discriminate].
    simpl in Hl. injection Hl as <-.
    rewrite elem_of_cons, (IH bs eq_refl). split.
    + intros [Heq | (v & Hin & Hv)].
      * injection Heq as -> ->. exists v0. split; [left|]; done.
      * exists v. split; [right|]; done.
    + intros (v & Hin & Hv). apply elem_of_cons in Hin as [Heq | Hin].
      * injection Heq as -> ->. left. congruence.
      * right. by exists v.
Qed.

Lemma loader_items_keys items :
  ∀ l, Loader.load_items construct items = Some l -> l.*1 = items.*1.
Proof.
  induction items as [|[k0 v0] items IH]; intros l Hl.
  - simpl in Hl. by injection Hl as <-.
  - simpl in Hl.
    destruct (construct v0) as [b0|]; [|discriminate].
    destruct (Loader.load_items construct items) as [bs|]; [|discriminate].
    simpl in Hl. injection Hl as <-. simpl. f_equal. by apply IH.
Qed.

Lemma loader_items_total items :
  (∀ k v, (k, v) ∈ items -> is_Some (construct v)) ->
  is_Some (Loader.load_items construct items).
Proof.
  induction items as [|[k0 v0] items IH]; intros Hall.
  - by eexists.
  - simpl.
    destruct (Hall k0 v0) as [b0 ->]; [left|].
    destruct IH as [bs ->].
    + intros k v Hin. apply (Hall k v). by right.
    + simpl. by eexists.
Qed.

(** X11: one value the record constructor refuses empties the whole
    store.  If any client_id of the document carries such a value, [_load]
    ends with the empty cache and raises nothing, as it does for a missing
    file, for a file that is not JSON and for a document that is not an
    object; this holds whatever the constructor accepts. *)
Theorem load_one_refused (items : list (string * json)) (k : string) (v : json) :
  dict_of_items items !! k = Some v ->
  construct v = None ->
  Loader.load construct (Document (JDict items)) = ∅ ∧
  Loader.load construct Missing = ∅ ∧
  Loader.load construct Garbled = ∅ ∧
  ∀ l, Loader.load construct (Document (JList l)) = ∅.
Proof.
  intros Hk Hv. split; [|done]. unfold Loader.load.
  rewrite (loader_items_refused (map_to_list (dict_of_items items)) k v); [done| |done].
  by apply elem_of_map_to_list.
Qed.

(** X12: when the constructor accepts every value of the document, the
    loaded store holds, under each client_id of the document, the record
    the constructor builds from the value the document gives that
    client_id (the last one, if the document repeats it), and nothing
    else. *)
Theorem load_pointwise (items : list (string * json)) :
  (∀ k v, dict_of_items items !! k = Some v -> is_Some (construct v)) ->
  ∀ k, Loader.load construct (Document (JDict items)) !! k
       = dict_of_items items !! k ≫= construct.
Proof.
  intros Hall k. unfold Loader.load.
  set (data := dict_of_items items) in *.
  destruct (loader_items_total (map_to_list data)) as [l Hl].
  { intros k' v' Hin. apply elem_of_map_to_list in Hin. by apply (Hall k'). }
  rewrite Hl. apply option_eq. intros b.
  rewrite PersistenceFacts.dict_of_items_lookup.
  - rewrite (loader_items_elem _ l Hl). split.
    + intros (v & Hin & Hv). apply elem_of_map_to_list in Hin. by rewrite Hin.
    + intros Hb. destruct (data !! k) as [v|] eqn:E; [|discriminate].
      exists v. split; [by apply elem_of_map_to_list|exact Hb].
  - rewrite (loader_items_keys _ l Hl). apply NoDup_fst_map_to_list.
Qed.
End WithConstructor.

(** [_load] is the loader at the constructor of [BrandConfig]. *)
Lemma load_at_BrandConfig (f : file) : _load f = Loader.load BrandConfig.validate f.
Proof. destruct f as [| |[]]; reflexivity. Qed.

Lemma load_one_refused_witness :
  Loader.load BrandConfig.validate
    (Document (JDict [ ("acme", BrandConfig.model_dump_json Sample.acme);
                       ("globex", JStr "Globex") ])) = ∅ ∧
  Loader.load BrandConfig.validate Missing = ∅ ∧
  Loader.load BrandConfig.validate Garbled = ∅ ∧
  ∀ l, Loader.load BrandConfig.validate (Document (JList l)) = ∅.
Proof.
  apply (load_one_refused BrandConfig.validate
           [ ("acme", BrandConfig.model_dump_json Sample.acme); ("globex", JStr "Globex") ]
           "globex" (JStr "Globex")).
  - reflexivity.
  - reflexivity.
Defined.

Lemma load_pointwise_witness :
  Loader.load BrandConfig.validate
    (Document (JDict [ ("acme", BrandConfig.model_dump_json Sample.acme) ])) !! "acme"
  = dict_of_items [ ("acme", BrandConfig.model_dump_json Sample.acme) ] !! "acme"
    ≫= BrandConfig.validate.
Proof.
  apply (load_pointwise BrandConfig.validate
           [ ("acme", BrandConfig.model_dump_json Sample.acme) ]).
  intros k v H.
  change ((<[ "acme" := BrandConfig.model_dump_json Sample.acme ]> ∅ : gmap _ _) !! k
          = Some v) in H.
  apply lookup_insert_Some in H as [[_ <-]|[_ H]].
  - by eexists.
  - by rewrite lookup_empty in H.
Defined.

End LoaderLaws.

(* ===================================================================== *)
(** * Report generation on a platform that may refuse *)
(* ===================================================================== *)

Module ReportOnPlatform.
Import Api OnPlatform.

(** The handler, once the client is found. *)
Lemma generate_report_found (p : Platform.t) storage request brand w :
  Storage.get (ReportRequest.client_id request) storage = Some brand ->
  generate_report p storage request w
  = match render_docx p (ReportRequest.template_name request)
            (build_context (Platform.datetime_now p) brand request)
            (Some (output_name_for (Platform.datetime_now p) request)) w with
    | (Raise e, w1) =>
        (Raise (HTTPException 500 ("Failed to render report: " +:+ exn_str e)), w1)
    | (Ok docx_path, w1) =>
        let respond pdf_path :=
          {| ReportResponse.client_id := ReportRequest.client_id request;
             ReportResponse.docx_path := docx_path;
             ReportResponse.pdf_path := pdf_path;
             ReportResponse.generated_at := Platform.datetime_utcnow p;
             ReportResponse.template_used := ReportRequest.template_name request |} in
        if ReportRequest.generate_pdf request then
          match docx_to_pdf p docx_path None w1 with
          | (Raise (PdfConversionError m), w2) =>
              (Raise (HTTPException 500 ("PDF conversion failed: " +:+ m)), w2)
          | (Raise e, w2) => (Raise e, w2)
          | (Ok pdf_path, w2) => (Ok (respond (Some pdf_path)), w2)
          end
        else (Ok (respond None), w1)
    end.
Proof. intros known. unfold generate_report. by rewrite known. Qed.

(** What a successful rendering returns and records. *)
Lemma render_docx_returned (p : Platform.t) template_name context output_name w docx_path w1 :
  render_docx p template_name context (Some output_name) w = (Ok docx_path, w1) ->
  docx_path = Platform.joinpath p (OUTPUT_DIR p) output_name ∧
  trace w1
  = (trace w ++ [DocxTemplateCall (Platform.joinpath p (TEMPLATE_DIR p) template_name)
                   (Platform.joinpath p (OUTPUT_DIR p) output_name)])%list.
Proof.
  destruct (Platform.mkdir_parents p (OUTPUT_DIR p) w) as [[[]|e] w0] eqn:E.
  - rewrite (RenderOnPlatform.render_docx_engine p _ context (Some output_name) w w0 E).
    cbv zeta. cbn [default from_option].
    destruct (Platform.docxtpl p _ _ _ _).1; [discriminate|].
    by intros [= <- <-].
  - rewrite (RenderOnPlatform.render_docx_no_output_dir
               p _ context (Some output_name) w e w0 E).
    discriminate.
Qed.

(** A rendering has called the engine once or not at all. *)
Lemma render_docx_trace_cases (p : Platform.t) template_name context output_name w :
  trace (render_docx p template_name context (Some output_name) w).2 = trace w
  ∨ trace (render_docx p template_name context (Some output_name) w).2
    = (trace w ++ [DocxTemplateCall (Platform.joinpath p (TEMPLATE_DIR p) template_name)
                     (Platform.joinpath p (OUTPUT_DIR p) output_name)])%list.
Proof.
  destruct (Platform.mkdir_parents p (OUTPUT_DIR p) w) as [[[]|e] w0] eqn:E.
  - rewrite (RenderOnPlatform.render_docx_engine p _ context (Some output_name) w w0 E).
    right. reflexivity.
  - rewrite (RenderOnPlatform.render_docx_no_output_dir
               p _ context (Some output_name) w e w0 E).
    left. reflexivity.
Qed.

(** X23: for a known client with [generate_pdf] false no converter is run:
    the template engine, called at most once, is the only outside call.  A
    successful answer carries no PDF path, the request's client_id and
    template name, the UTC clock reading, and as [docx_path] the text of
    [OUTPUT_DIR / name], the output path the engine was called with. *)
Theorem generate_report_docx_only (p : Platform.t) (storage : Storage.BrandStorage)
  (request : ReportRequest.t) (brand : BrandConfig.t) (w : World) :
  Storage.get (ReportRequest.client_id request) storage = Some brand ->
  ReportRequest.generate_pdf request = false ->
  let r := generate_report p storage request w in
  let engine_call :=
    DocxTemplateCall
      (Platform.joinpath p (TEMPLATE_DIR p) (ReportRequest.template_name request))
      (Platform.joinpath p (OUTPUT_DIR p)
         (output_name_for (Platform.datetime_now p) request)) in
  (trace r.2 = trace w ∨ trace r.2 = (trace w ++ [engine_call])%list) ∧
  ∀ response,
    r.1 = Ok response ->
    response
    = {| ReportResponse.client_id := ReportRequest.client_id request;
         ReportResponse.docx_path :=
           Platform.joinpath p (OUTPUT_DIR p)
             (output_name_for (Platform.datetime_now p) request);
         ReportResponse.pdf_path := None;
         ReportResponse.generated_at := Platform.datetime_utcnow p;
         ReportResponse.template_used := ReportRequest.template_name request |}
    ∧ trace r.2 = (trace w ++ [engine_call])%list.
Proof.
  intros known Hpdf. cbv zeta. rewrite (generate_report_found p _ _ brand w known), Hpdf.
  pose proof (render_docx_trace_cases p (ReportRequest.template_name request)
                (build_context (Platform.datetime_now p) brand request)
                (output_name_for (Platform.datetime_now p) request) w) as Ht.
  pose proof (render_docx_returned p (ReportRequest.template_name request)
                (build_context (Platform.datetime_now p) brand request)
                (output_name_for (Platform.datetime_now p) request) w) as Hr.
  destruct (render_docx p _ _ _ w) as [[docx|e] w1].
  - destruct (Hr docx w1 eq_refl) as [-> Htr]. cbn [fst snd].
    split; [by right|]. intros response [= <-]. done.
  - cbn [fst snd] in *. split; [exact Ht|]. discriminate.
Qed.

Lemma generate_report_docx_only_witness :
  (trace (generate_report Lab.server Sample.acme_store (Lab.quarterly false) Lab.site).2
   = trace Lab.site
   ∨ trace (generate_report Lab.server Sample.acme_store (Lab.quarterly false) Lab.site).2
     = (trace Lab.site
        ++ [DocxTemplateCall "/srv/app/reports/templates/quarterly.docx"
              "/srv/app/reports/output/acme_q3.docx"])%list) ∧
  ∀ response,
    (generate_report Lab.server Sample.acme_store (Lab.quarterly false) Lab.site).1
    = Ok response ->
    response
    = {| ReportResponse.client_id := "acme";
         ReportResponse.docx_path := "/srv/app/reports/output/acme_q3.docx";
         ReportResponse.pdf_path := None;
         ReportResponse.generated_at := Sample.later;
         ReportResponse.template_used := "quarterly.docx" |}
    ∧ trace (generate_report Lab.server Sample.acme_store (Lab.quarterly false) Lab.site).2
      = (trace Lab.site
         ++ [DocxTemplateCall "/srv/app/reports/templates/quarterly.docx"
               "/srv/app/reports/output/acme_q3.docx"])%list.
Proof.
  apply (generate_report_docx_only Lab.server Sample.acme_store (Lab.quarterly false)
           Sample.acme Lab.site).
  - reflexivity.
  - reflexivity.
Defined.



(** X26: when a PDF is asked for and [soffice] is on the path, the tool is
    run once, after the template engine and on the document the engine was
    told to write: its arguments are [--headless --convert-to pdf --outdir],
    the directory of the resolved document with the suffix [.pdf], and the
    resolved document. *)
Theorem generate_report_converts_rendered (p : Platform.t) (storage : Storage.BrandStorage)
  (request : ReportRequest.t) (brand : BrandConfig.t) (w w1 w2 : World)
  (output_path docx_path pdf_path : string) :
  Storage.get (ReportRequest.client_id request) storage = Some brand ->
  ReportRequest.generate_pdf request = true ->
  truthy (Platform.which p "soffice") = true ->
  render_docx p (ReportRequest.template_name request)
    (build_context (Platform.datetime_now p) brand request)
    (Some (output_name_for (Platform.datetime_now p) request)) w
  = (Ok output_path, w1) ->
  Platform.resolve p output_path w1 = Ok docx_path ->
  Platform.with_suffix p docx_path ".pdf" = Ok pdf_path ->
  Platform.mkdir_parents p (Platform.parent p pdf_path) w1 = (Ok tt, w2) ->
  output_path
  = Platform.joinpath p (OUTPUT_DIR p) (output_name_for (Platform.datetime_now p) request) ∧
  trace (generate_report p storage request w).2
  = (trace w
     ++ [DocxTemplateCall
           (Platform.joinpath p (TEMPLATE_DIR p) (ReportRequest.template_name request))
           output_path;
         SubprocessRun ["soffice"; "--headless"; "--convert-to"; "pdf"; "--outdir";
                        Platform.parent p pdf_path; docx_path]])%list.
Proof.
  intros known Hpdf Hw Hr Hres Hsuf Hmk.
  rewrite (generate_report_found p _ _ brand w known), Hr, Hpdf. cbv zeta.
  destruct (render_docx_returned p _ _ _ w output_path w1 Hr) as [Hout Htr].
  split; [exact Hout|].
  assert (Hc : trace (docx_to_pdf p output_path None w1).2
               = (trace w1 ++ [SubprocessRun
                                 ["soffice"; "--headless"; "--convert-to"; "pdf"; "--outdir";
                                  Platform.parent p pdf_path; docx_path]])%list).
  { unfold docx_to_pdf, Host.bind.
    rewrite ConvertOnPlatform.prepare_unfold, Hres, Hsuf, Hmk, Hw. cbn [fst snd].
    by rewrite ConvertOnPlatform.libreoffice_trace. }
  rewrite Htr, <- Hout, <- app_assoc in Hc. simpl in Hc.
  by destruct (docx_to_pdf p output_path None w1) as [[pdf|[]] w3].
Qed.

Lemma generate_report_converts_rendered_witness :
  "/srv/app/reports/output/acme_q3.docx"
  = Platform.joinpath Lab.server (OUTPUT_DIR Lab.server)
      (output_name_for (Platform.datetime_now Lab.server) (Lab.quarterly true)) ∧
  trace (generate_report Lab.server Sample.acme_store (Lab.quarterly true) Lab.site).2
  = (trace Lab.site
     ++ [DocxTemplateCall
           (Platform.joinpath Lab.server (TEMPLATE_DIR Lab.server) "quarterly.docx")
           "/srv/app/reports/output/acme_q3.docx";
         SubprocessRun ["soffice"; "--headless"; "--convert-to"; "pdf"; "--outdir";
                        Platform.parent Lab.server "/srv/app/reports/output/acme_q3.pdf";
                        "/srv/app/reports/output/acme_q3.docx"]])%list.
Proof.
  apply (generate_report_converts_rendered Lab.server Sample.acme_store (Lab.quarterly true)
           Sample.acme Lab.site
           (render_docx Lab.server "quarterly.docx"
              (build_context Sample.noon Sample.acme (Lab.quarterly true))
              (Some "acme_q3.docx") Lab.site).2
           (render_docx Lab.server "quarterly.docx"
              (build_context Sample.noon Sample.acme (Lab.quarterly true))
              (Some "acme_q3.docx") Lab.site).2).
  - reflexivity.
  - reflexivity.
  - reflexivity.
  - by vm_compute.
  - by vm_compute.
  - by vm_compute.
  - by vm_compute.
Defined.

End ReportOnPlatform.

(* ===================================================================== *)
(** * The logo upload *)
(* ===================================================================== *)

Module LogoUpload.
Import Storage OnPlatform.

(** X30: a logo upload for a client the store does not hold is a 404 that
    writes nothing and changes no record.  For a client it holds the logo
    goes to [brands / <client_id>_logo<ext>], where [ext] is the suffix of
    the uploaded file's name, or [.png] when it has none.  If writing that
    file raises, the error leaves the handler and the store is as before;
    otherwise the record answered and stored is the old one with that path
    as [logo_path] and the UTC clock reading as [updated_at], and the other
    records are untouched. *)
Theorem upload_logo_spec (p : Platform.t) (client_id filename : string)
  (storage : BrandStorage) (w : World) :
  let r := upload_logo p client_id filename storage w in
  let ext :=
    if decide (Platform.suffix p filename = "") then ".png" else Platform.suffix p filename in
  let logo_path := Platform.joinpath p "brands" (client_id +:+ "_logo" +:+ ext) in
  match get client_id storage with
  | None => r = (Raise (HTTPException 404 "Client not found"), storage, w)
  | Some old =>
      match Platform.write_bytes p logo_path w with
      | (Raise e, w1) => r = (Raise e, storage, Platform.after w w1)
      | (Ok _, w1) =>
          let brand :=
            BrandConfig.copy_logo old (Some logo_path) (Some (Platform.datetime_utcnow p)) in
          r.1.1 = Ok (Some brand) ∧
          get client_id r.1.2 = Some brand ∧
          (∀ k, k ≠ client_id -> get k r.1.2 = get k storage) ∧
          r.2 = Platform.after w w1
      end
  end.
Proof.
  cbv zeta. unfold upload_logo, logo_path_for, BRANDS_DIR, exists_, update_logo, get.
  destruct (_cache storage !! client_id) as [old|] eqn:E.
  - rewrite bool_decide_eq_true_2 by (by eexists). cbn [negb].
    destruct (Platform.write_bytes p _ w) as [[[]|e] w1]; [|reflexivity].
    simpl. rewrite lookup_insert_eq. repeat split; try reflexivity.
    intros k Hk. by rewrite lookup_insert_ne.
  - rewrite bool_decide_eq_false_2; [reflexivity|]. by intros [? ?].
Qed.

(** On POSIX the suffix is taken from the last part of the name, a
    trailing slash dropped; a name without a suffix gives [.png]; and
    without the directory [brands] the upload fails with
    [FileNotFoundError], the record keeping its logo path. *)
Lemma upload_logo_on_posix :
  logo_path_for Lab.server "acme" "logo.gz/" = "brands/acme_logo.gz" ∧
  logo_path_for Lab.server "acme" "logo" = "brands/acme_logo.png" ∧
  logo_path_for Lab.server "acme" "photos/logo.v2.JPG" = "brands/acme_logo.JPG" ∧
  (files (upload_logo Lab.server "acme" "logo.svg" Sample.acme_store Lab.site).2
   = {[ "/srv/app/brands/acme_logo.svg" ]} ∪ files Lab.site) ∧
  ∃ e, upload_logo Lab.server "acme" "logo.svg" Sample.acme_store Lab.no_brands
       = (Raise e, Sample.acme_store, Lab.no_brands)
       ∧ Platform.exn_class e = "FileNotFoundError".
Proof.
  repeat split; try reflexivity.
  exists (FileNotFoundError ""). by vm_compute.
Qed.

End LogoUpload.
